(** * YOLO polygon-to-bounding-box converter: a shallow embedding of
      [polygon_to_bbox.py] and the properties of its reducer and transcoder.

    How the program is modelled.
    - A Python [str] is a [string]; its characters are code points below
      256, and [strip], [split] and [repr] are those of CPython on them.
    - A Python [float] is an IEEE 754 binary64 number, that is a primitive
      [float]; [+], [-], [/], [<] and [>] are the primitive operations, whose
      meaning is given by [SpecFloat] through the library's [FloatAxioms].
      [float(s)] and the format [.6f] round correctly, as CPython does.
    - Exceptions are values of [exn]; code that may raise returns a [result].
    - [print] appends a line to the [stdout] of the [world]; the files of the
      world are regular, readable and writable, in a finite map from paths to
      contents.
    - [main] starts from the parsed command line. *)

From stdpp Require Import gmap strings.
From Stdlib Require Import ZArith NArith Lia List Ascii String Bool Permutation.
From Stdlib Require Import DecimalString Floats.
Import ListNotations.

Local Open Scope string_scope.
Local Open Scope list_scope.

(** ** Python strings *)

Module PyStr.

Definition ord (c : ascii) : N := N_of_ascii c.

(** [str.isspace] on one character, for code points below 256. *)
Definition isspace (c : ascii) : bool :=
  let n := ord c in
  ((9 <=? n) && (n <=? 13) || (28 <=? n) && (n <=? 32)
   || (n =? 133) || (n =? 160))%N.

Fixpoint lstrip (s : string) : string :=
  match s with
  | EmptyString => EmptyString
  | String c s' => if isspace c then lstrip s' else s
  end.

Fixpoint rstrip (s : string) : string :=
  match s with
  | EmptyString => EmptyString
  | String c s' =>
      match rstrip s' with
      | EmptyString => if isspace c then EmptyString else String c EmptyString
      | r => String c r
      end
  end.

(** [s.strip()] *)
Definition strip (s : string) : string := rstrip (lstrip s).

(** [s.split()]: the maximal runs of non-whitespace characters.  [word] is
    the run being read, most recent character first. *)
Fixpoint split_from (word : list ascii) (s : string) : list string :=
  let flush := match word with
               | [] => []
               | _ :: _ => [string_of_list_ascii (rev word)]
               end in
  match s with
  | EmptyString => flush
  | String c s' =>
      if isspace c then flush ++ split_from [] s'
      else split_from (c :: word) s'
  end.

Definition split (s : string) : list string := split_from [] s.

(** [not s] for a string. *)
Definition is_empty (s : string) : bool :=
  match s with EmptyString => true | _ => false end.

Definition hex_digit (n : N) : ascii :=
  ascii_of_N (if (n <? 10)%N then 48 + n else 87 + n).

Definition contains (c : ascii) (s : string) : bool :=
  existsb (Ascii.eqb c) (list_ascii_of_string s).

(** One character of [repr(s)] when the string is quoted with [q]. *)
Definition repr_char (q c : ascii) : string :=
  let n := ord c in
  if Ascii.eqb c q || Ascii.eqb c "\"
  then String "\" (String c EmptyString)
  else if (n =? 9)%N then "\t"
  else if (n =? 10)%N then "\n"
  else if (n =? 13)%N then "\r"
  else if ((n <? 32) || (127 <=? n) && (n <=? 160) || (n =? 173))%N
  then String "\" (String "x" (String (hex_digit (n / 16))
                                   (String (hex_digit (n mod 16)) EmptyString)))
  else String c EmptyString.

(** [repr(s)]: single quotes, unless the string has a single quote and no
    double quote. *)
Definition repr (s : string) : string :=
  let dq := ascii_of_N 34 in
  let q := if contains "'" s && negb (contains dq s) then dq else "'"%char in
  String q (String.concat EmptyString (map (repr_char q) (list_ascii_of_string s))
            ++ String q EmptyString).

(** [str(n)] for a natural number. *)
Definition of_nat (n : nat) : string :=
  NilEmpty.string_of_uint (Nat.to_uint n).

Definition of_N (n : N) : string :=
  NilEmpty.string_of_uint (N.to_uint n).

End PyStr.

(** ** Exceptions and results *)

Inductive exn : Type :=
  | ValueError (msg : string)
  | IndexError (msg : string)
  | FileNotFoundError (msg : string)
  | SystemExit (code : Z).

(** [str(e)] *)
Definition exn_str (e : exn) : string :=
  match e with
  | ValueError msg | IndexError msg | FileNotFoundError msg => msg
  | SystemExit code => if (code <? 0)%Z then "-" ++ PyStr.of_N (Z.abs_N code)
                       else PyStr.of_N (Z.abs_N code)
  end.

(** [isinstance(e, Exception)]: [SystemExit] derives from [BaseException]
    only. *)
Definition is_Exception (e : exn) : bool :=
  match e with SystemExit _ => false | _ => true end.

Inductive result (A : Type) : Type :=
  | Ok (a : A)
  | Raise (e : exn).
Arguments Ok {A} a.
Arguments Raise {A} e.

Definition bind {A B} (m : result A) (k : A -> result B) : result B :=
  match m with
  | Ok a => k a
  | Raise e => Raise e
  end.

Declare Scope result_scope.
Delimit Scope result_scope with result.
Notation "x <- m ;; k" := (bind m (fun x => k))
  (at level 100, m at next level, right associativity) : result_scope.

(** A list comprehension [[f(x) for x in l]] whose body may raise. *)
Fixpoint mapM {A B} (f : A -> result B) (l : list A) : result (list B) :=
  match l with
  | [] => Ok []
  | x :: l' =>
      match f x with
      | Ok y => match mapM f l' with
                | Ok ys => Ok (y :: ys)
                | Raise e => Raise e
                end
      | Raise e => Raise e
      end
  end.

(** [range(start, stop, 2)] *)
Definition range2 (start stop : nat) : list nat :=
  map (fun k => start + 2 * k)%nat (seq 0 ((stop - start + 1) / 2)).

(** [l[i]] for a non-negative index. *)
Definition getitem {A} (l : list A) (i : nat) : result A :=
  match nth_error l i with
  | Some x => Ok x
  | None => Raise (IndexError "list index out of range")
  end.

(** ** Python floats *)

Module PyFloat.

Definition is_digit (c : ascii) : bool :=
  ((48 <=? PyStr.ord c) && (PyStr.ord c <=? 57))%N.

Definition digit_val (c : ascii) : N := (PyStr.ord c - 48)%N.

Definition lower (c : ascii) : ascii :=
  let n := PyStr.ord c in
  if ((65 <=? n) && (n <=? 90))%N then ascii_of_N (n + 32) else c.

(** An optional sign. *)
Definition sign (l : list ascii) : bool * list ascii :=
  match l with
  | "-"%char :: l' => (true, l')
  | "+"%char :: l' => (false, l')
  | _ => (false, l)
  end.

(** The rest of a [digitpart]: digits, each optionally preceded by one
    underscore.  Returns the accumulated value, the number of digits read
    and the unread input. *)
Fixpoint digits_more (acc : N) (cnt : nat) (l : list ascii)
  : N * nat * list ascii :=
  match l with
  | c :: l' =>
      if is_digit c then digits_more (10 * acc + digit_val c) (S cnt) l'
      else if Ascii.eqb c "_" then
        match l' with
        | d :: l'' =>
            if is_digit d
            then digits_more (10 * acc + digit_val d) (S cnt) l''
            else (acc, cnt, l)
        | [] => (acc, cnt, l)
        end
      else (acc, cnt, l)
  | [] => (acc, cnt, l)
  end.

(** digitpart ::= digit (["_"] digit)* *)
Definition digitpart (acc : N) (l : list ascii)
  : option (N * nat * list ascii) :=
  match l with
  | c :: l' =>
      if is_digit c then Some (digits_more (10 * acc + digit_val c) 1 l')
      else None
  | [] => None
  end.

(** number ::= [digitpart] "." digitpart | digitpart ["."]
    Returns the digits read as one natural number and the decimal exponent
    that the fraction digits contribute. *)
Definition number (l : list ascii) : option (N * Z * list ascii) :=
  match digitpart 0 l with
  | Some (m, _, rest) =>
      match rest with
      | "."%char :: rest' =>
          match digitpart m rest' with
          | Some (m', k, rest'') => Some (m', (- Z.of_nat k)%Z, rest'')
          | None => Some (m, 0%Z, rest')
          end
      | _ => Some (m, 0%Z, rest)
      end
  | None =>
      match l with
      | "."%char :: rest' =>
          match digitpart 0 rest' with
          | Some (m', k, rest'') => Some (m', (- Z.of_nat k)%Z, rest'')
          | None => None
          end
      | _ => None
      end
  end.

(** exponent ::= ("e" | "E") [sign] digitpart, up to the end of input. *)
Definition exponent (l : list ascii) : option Z :=
  match l with
  | [] => Some 0%Z
  | c :: l' =>
      if Ascii.eqb (lower c) "e" then
        let '(neg, l'') := sign l' in
        match digitpart 0 l'' with
        | Some (x, _, []) => Some (cond_Zopp neg (Z.of_N x))
        | _ => None
        end
      else None
  end.

(** The binary64 number nearest to [(-1)^neg * m * 10^e] (ties to even):
    an integer is rounded by [binary_normalize], a proper fraction is the
    correctly rounded quotient of [m] by [10^-e]. *)
Definition of_decimal (neg : bool) (m : N) (e : Z) : float :=
  match m with
  | N0 => if neg then neg_zero else zero
  | Npos p =>
      match e with
      | Zneg k =>
          SF2Prim (SFdiv prec emax (S754_finite neg p 0)
                         (S754_finite false (10 ^ k)%positive 0))
      | _ =>
          SF2Prim (binary_normalize prec emax
                     (cond_Zopp neg (Zpos p * 10 ^ e)%Z) 0 false)
      end
  end.

(** floatvalue ::= [sign] (floatnumber | "inf" | "infinity" | "nan"),
    the words in any letter case. *)
Definition parse (s : string) : option float :=
  let '(neg, l) := sign (list_ascii_of_string s) in
  let word := string_of_list_ascii (map lower l) in
  if String.eqb word "inf" || String.eqb word "infinity"
  then Some (if neg then neg_infinity else infinity)
  else if String.eqb word "nan" then Some nan
  else
    match number l with
    | Some (m, e1, rest) =>
        match exponent rest with
        | Some e2 => Some (of_decimal neg m (e1 + e2))
        | None => None
        end
    | None => None
    end.

(** [float(s)] for a string [s]. *)
Definition of_str (s : string) : result float :=
  match parse (PyStr.strip s) with
  | Some x => Ok x
  | None =>
      Raise (ValueError ("could not convert string to float: " ++ PyStr.repr s))
  end.

(** [n / d] rounded to the nearest integer, ties to even ([0 <= n], [0 < d]). *)
Definition round_half_even (n d : Z) : Z :=
  let q := (n / d)%Z in
  match (2 * (n mod d) ?= d)%Z with
  | Lt => q
  | Gt => (q + 1)%Z
  | Eq => if Z.even q then q else (q + 1)%Z
  end.

Definition pad_zeros (width : nat) (s : string) : string :=
  string_of_list_ascii (repeat "0"%char (width - String.length s)) ++ s.

(** [|x| * 10^6] rounded to an integer, for [|x| = m * 2^e]. *)
Definition scaled6 (m : positive) (e : Z) : Z :=
  match e with
  | Zneg k => round_half_even (Zpos m * 1000000) (2 ^ Zpos k)
  | _ => (Zpos m * 2 ^ e * 1000000)%Z
  end.

Definition fixed6 (neg : bool) (n : Z) : string :=
  (if neg then "-" else EmptyString)
    ++ PyStr.of_N (Z.to_N (n / 1000000)) ++ "."
    ++ pad_zeros 6 (PyStr.of_N (Z.to_N (n mod 1000000))).

(** [f"{x:.6f}"]: the exact value of [x] correctly rounded to six decimal
    places. *)
Definition format_6f (x : float) : string :=
  match Prim2SF x with
  | S754_nan => "nan"
  | S754_infinity s => if s then "-inf" else "inf"
  | S754_zero s => fixed6 s 0
  | S754_finite s m e => fixed6 s (scaled6 m e)
  end.

(** The loops of the builtins [min] and [max]: the first smallest (largest)
    item is kept. *)
Fixpoint min_from (cur : float) (l : list float) : float :=
  match l with
  | [] => cur
  | x :: l' => min_from (if (x <? cur)%float then x else cur) l'
  end.

Fixpoint max_from (cur : float) (l : list float) : float :=
  match l with
  | [] => cur
  | x :: l' => max_from (if (cur <? x)%float then x else cur) l'
  end.

Definition min (l : list float) : result float :=
  match l with
  | [] => Raise (ValueError "min() arg is an empty sequence")
  | x :: l' => Ok (min_from x l')
  end.

Definition max (l : list float) : result float :=
  match l with
  | [] => Raise (ValueError "max() arg is an empty sequence")
  | x :: l' => Ok (max_from x l')
  end.

End PyFloat.

(** ** The world: files and standard output *)

Record world : Type := World {
  files : gmap string string;
  stdout : list string
}.

Definition io (A : Type) : Type := world -> result A * world.

Definition ret {A} (a : A) : io A := fun w => (Ok a, w).

Definition raise {A} (e : exn) : io A := fun w => (Raise e, w).

Definition lift {A} (r : result A) : io A := fun w => (r, w).

Definition iobind {A B} (m : io A) (k : A -> io B) : io B :=
  fun w =>
    match m w with
    | (Ok a, w') => k a w'
    | (Raise e, w') => (Raise e, w')
    end.

Declare Scope io_scope.
Delimit Scope io_scope with io.
Notation "x <- m ;; k" := (iobind m (fun x => k))
  (at level 100, m at next level, right associativity) : io_scope.
Notation "m ;; k" := (iobind m (fun _ => k))
  (at level 100, right associativity) : io_scope.

(** [try: body / except Exception as e: handler(e)] *)
Definition try_except_Exception {A} (body : io A) (handler : exn -> io A)
  : io A :=
  fun w =>
    match body w with
    | (Raise e, w') => if is_Exception e then handler e w' else (Raise e, w')
    | r => r
    end.

(** The world after one more line on standard output. *)
Definition printed (s : string) (w : world) : world :=
  {| files := files w; stdout := stdout w ++ [s] |}.

(** [print(s)] *)
Definition print (s : string) : io unit := fun w => (Ok tt, printed s w).

(** [os.path.exists(path)], in a world that holds regular files only. *)
Definition os_path_exists (path : string) : io bool :=
  fun w => (Ok (bool_decide (is_Some (files w !! path))), w).

(** The lines of a text read with universal newlines: every line keeps its
    terminator, translated to a line feed.  [cur] is the line being read,
    most recent character first. *)
Fixpoint lines_of (cur : list ascii) (s : string) : list string :=
  let close extra := string_of_list_ascii (rev (extra ++ cur)) in
  match s with
  | EmptyString => match cur with [] => [] | _ :: _ => [close []] end
  | String c s' =>
      if (PyStr.ord c =? 10)%N then close [c] :: lines_of [] s'
      else if (PyStr.ord c =? 13)%N then
        match s' with
        | String c' s'' =>
            if (PyStr.ord c' =? 10)%N then close [c'] :: lines_of [] s''
            else close [ascii_of_N 10] :: lines_of [] s'
        | EmptyString => [close [ascii_of_N 10]]
        end
      else lines_of (c :: cur) s'
  end.

(** [with open(path, 'r') as f: lines = f.readlines()] *)
Definition readlines (path : string) : io (list string) :=
  fun w =>
    match files w !! path with
    | Some content => (Ok (lines_of [] content), w)
    | None =>
        (Raise (FileNotFoundError
                  ("[Errno 2] No such file or directory: " ++ PyStr.repr path)),
         w)
    end.

(** [with open(path, 'w') as f: for line in lines: f.write(line + '\n')] *)
Definition write_lines (path : string) (lines : list string) : io unit :=
  fun w =>
    let newline := String (ascii_of_N 10) EmptyString in
    let text :=
      String.concat EmptyString
        (map (fun line : string => (line ++ newline)%string) lines) in
    (Ok tt, {| files := <[path := text]> (files w); stdout := stdout w |}).

(** A [for] loop that threads its variables through the iterations. *)
Fixpoint for_each {A S} (body : S -> A -> io S) (l : list A) (st : S) : io S :=
  match l with
  | [] => ret st
  | x :: l' => (st' <- body st x ;; for_each body l' st')%io
  end.

(** ** The converter *)

Definition bbox : Type := float * float * float * float.

Definition polygon_to_bbox (polygon_coords : list string) : result bbox :=
  if (List.length polygon_coords <? 6)%nat
  then Raise (ValueError "Polygon must have at least 3 points")
  else
    (x_coords <- mapM (fun i => tok <- getitem polygon_coords i ;; PyFloat.of_str tok)
                      (range2 0 (List.length polygon_coords)) ;;
     y_coords <- mapM (fun i => tok <- getitem polygon_coords i ;; PyFloat.of_str tok)
                      (range2 1 (List.length polygon_coords)) ;;
     min_x <- PyFloat.min x_coords ;;
     max_x <- PyFloat.max x_coords ;;
     min_y <- PyFloat.min y_coords ;;
     max_y <- PyFloat.max y_coords ;;
     let center_x := ((min_x + max_x) / 2)%float in
     let center_y := ((min_y + max_y) / 2)%float in
     let width := (max_x - min_x)%float in
     let height := (max_y - min_y)%float in
     Ok (center_x, center_y, width, height))%result.

(** The output record of [process_line]. *)
Definition bbox_line (class_id : string) (b : bbox) : string :=
  let '(center_x, center_y, width, height) := b in
  class_id ++ " " ++ PyFloat.format_6f center_x
           ++ " " ++ PyFloat.format_6f center_y
           ++ " " ++ PyFloat.format_6f width
           ++ " " ++ PyFloat.format_6f height.

Definition process_line (line : string) : io (option string) :=
  let parts := PyStr.split (PyStr.strip line) in
  if (List.length parts <? 7)%nat
  then
    (print ("Warning: Skipping invalid line (too few coordinates): "
              ++ PyStr.strip line) ;;
     ret None)%io
  else
    (class_id <- lift (getitem parts 0) ;;
     let polygon_coords := skipn 1 parts in
     match polygon_to_bbox polygon_coords with
     | Ok b => ret (Some (bbox_line class_id b))
     | Raise (ValueError msg) =>
         print ("Warning: Error processing line: " ++ exn_str (ValueError msg)) ;;
         ret None
     | Raise e => raise e
     end)%io.

(** The truth value of [process_line]'s result: [None] and the empty string
    are false. *)
Definition truthy (r : option string) : bool :=
  match r with
  | Some s => negb (PyStr.is_empty s)
  | None => false
  end.

(** One iteration of the loop of [convert_file] over
    [(converted_lines, skipped_lines)]. *)
Definition convert_step (st : list string * nat) (line : string)
  : io (list string * nat) :=
  let '(converted_lines, skipped_lines) := st in
  let line := PyStr.strip line in
  if PyStr.is_empty line then ret st
  else
    (converted_line <- process_line line ;;
     match converted_line with
     | Some s =>
         if truthy converted_line
         then ret (converted_lines ++ [s], skipped_lines)
         else ret (converted_lines, S skipped_lines)
     | None => ret (converted_lines, S skipped_lines)
     end)%io.

Definition convert_file (input_file output_file : string) : io unit :=
  (present <- os_path_exists input_file ;;
   if negb present
   then raise (FileNotFoundError ("Input file not found: " ++ input_file))
   else
     lines <- readlines input_file ;;
     print ("Processing " ++ PyStr.of_nat (List.length lines) ++ " lines from "
              ++ input_file ++ "...") ;;
     st <- for_each convert_step lines ([], 0%nat) ;;
     let '(converted_lines, skipped_lines) := st in
     write_lines output_file converted_lines ;;
     print " Conversion complete!" ;;
     print " Statistics:" ;;
     print ("   - Input lines processed: " ++ PyStr.of_nat (List.length lines)) ;;
     print ("   - Objects converted: " ++ PyStr.of_nat (List.length converted_lines)) ;;
     print ("   - Lines skipped: " ++ PyStr.of_nat skipped_lines) ;;
     print ("   - Output saved to: " ++ output_file))%io.

(** The parsed command line. *)
Record args : Type := Args {
  input : string;
  output : option string;
  batch : bool
}.

Section Main.

(** The batch mode is not part of the properties below, and neither is the
    file name that [pathlib] derives: [main] takes [batch_convert] as given,
    and [with_suffix p s] for [str(Path(p).with_suffix(s))], which is the new
    path or the message of the [ValueError] of a path without a name. *)
Variable batch_convert : string -> option string -> io unit.
Variable with_suffix : string -> string -> string + string.

Definition main (a : args) : io unit :=
  try_except_Exception
    (if batch a then batch_convert (input a) (output a)
     else
       (let input_file := input a in
        output_file <- match output a with
                       | Some o => ret o
                       | None =>
                           match with_suffix input_file ".bbox.txt" with
                           | inl path => ret path
                           | inr msg => raise (ValueError msg)
                           end
                       end ;;
        convert_file input_file output_file)%io)
    (fun e => (print (" Error: " ++ exn_str e) ;; raise (SystemExit 1))%io).

End Main.

(** The exit status of the process whose entry point returned [r]. *)
Definition exit_status (r : result unit) : Z :=
  match r with
  | Ok _ => 0
  | Raise (SystemExit code) => code
  | Raise _ => 1
  end.

(** ** Vocabulary of the properties *)

Module SF.

(** A position on a lexicographically ordered line that the comparison of
    [SpecFloat] follows; the two zeros share one position. *)
Definition key (x : spec_float) : Z * Z * Z :=
  match x with
  | S754_nan => (0, 0, 0)
  | S754_zero _ => (0, 0, 0)
  | S754_infinity true => (-2, 0, 0)
  | S754_infinity false => (2, 0, 0)
  | S754_finite true m e => (-1, - e, - Zpos m)
  | S754_finite false m e => (1, e, Zpos m)
  end%Z.

Definition lex_le (a b : Z * Z * Z) : Prop :=
  let '(a1, a2, a3) := a in
  let '(b1, b2, b3) := b in
  (a1 < b1 \/ (a1 = b1 /\ (a2 < b2 \/ (a2 = b2 /\ a3 <= b3))))%Z.

Definition is_nan (x : spec_float) : bool :=
  match x with S754_nan => true | _ => false end.

Definition is_zero (x : spec_float) : bool :=
  match x with S754_zero _ => true | _ => false end.

Definition is_finite (x : spec_float) : bool :=
  match x with S754_zero _ | S754_finite _ _ _ => true | _ => false end.

(** Identical, or two zeros. *)
Definition same (x y : spec_float) : Prop :=
  x = y \/ (is_zero x = true /\ is_zero y = true).

End SF.

(** Identical numbers, or numbers that [==] finds equal (the two zeros). *)
Definition same_number (x y : float) : Prop :=
  x = y \/ (x =? y)%float = true.

Definition pos (x : float) : Z * Z * Z := SF.key (Prim2SF x).

Definition is_minimum (m : float) (l : list float) : Prop :=
  In m l /\ Forall (fun x => (m <=? x)%float = true) l.

Definition is_maximum (m : float) (l : list float) : Prop :=
  In m l /\ Forall (fun x => (x <=? m)%float = true) l.

Definition no_nan (l : list float) : Prop :=
  Forall (fun x => PrimFloat.is_nan x = false) l.

(** The items at the even positions of a list, and those at the odd
    positions. *)
Fixpoint evens {A} (l : list A) : list A :=
  match l with
  | [] => []
  | x :: l' => x :: match l' with
                    | [] => []
                    | _ :: l'' => evens l''
                    end
  end.

Definition odds {A} (l : list A) : list A := evens (tl l).

(** The number that the token at position [i] of a coordinate list stands
    for. *)
Definition value_at (coords : list string) (i : nat) : option float :=
  match nth_error coords i with
  | Some tok => match PyFloat.of_str tok with
                | Ok v => Some v
                | Raise _ => None
                end
  | None => None
  end.

(** A token that [float] accepts. *)
Definition parses (tok : string) : Prop :=
  exists v, PyFloat.of_str tok = Ok v.

(** A token that [float] reads as a number: it accepts the token, and the
    result is not a NaN. *)
Definition numeric (tok : string) : Prop :=
  exists v, PyFloat.of_str tok = Ok v /\ PrimFloat.is_nan v = false.

(** A token that [float] reads as a real number: neither a NaN nor an
    infinity. *)
Definition real (tok : string) : Prop :=
  exists v, PyFloat.of_str tok = Ok v /\ PrimFloat.is_finite v = true.

(** The box of the coordinates once they are read: the second half of
    [polygon_to_bbox]. *)
Definition bbox_of (x_coords y_coords : list float) : result bbox :=
  (min_x <- PyFloat.min x_coords ;;
   max_x <- PyFloat.max x_coords ;;
   min_y <- PyFloat.min y_coords ;;
   max_y <- PyFloat.max y_coords ;;
   Ok (((min_x + max_x) / 2)%float, ((min_y + max_y) / 2)%float,
       (max_x - min_x)%float, (max_y - min_y)%float))%result.

(** The flattened coordinate list of a sequence of vertices. *)
Definition flatten (vertices : list (string * string)) : list string :=
  List.concat (map (fun v => [fst v; snd v]) vertices).

(** Boxes whose fields are the same numbers, one by one. *)
Definition same_bbox (b b' : bbox) : Prop :=
  let '(cx, cy, w, h) := b in
  let '(cx', cy', w', h') := b' in
  same_number cx cx' /\ same_number cy cy' /\ same_number w w'
  /\ same_number h h'.

(** A line of whitespace only (or of nothing). *)
Definition blank (line : string) : Prop :=
  Forall (fun c => PyStr.isspace c = true) (list_ascii_of_string line).

(** A token that [float] refuses. *)
Definition refused (tok : string) : Prop :=
  exists e, PyFloat.of_str tok = Raise e.

(** The number of a token, for tokens that [float] accepts. *)
Definition value (tok : string) : float :=
  match PyFloat.of_str tok with
  | Ok v => v
  | Raise _ => zero
  end.

(** A number that is not negative: a zero, or a positive number or
    infinity. *)
Definition SF_nonneg (x : spec_float) : bool :=
  match x with
  | S754_zero _ => true
  | S754_finite s _ _ | S754_infinity s => negb s
  | S754_nan => false
  end.

(** ** Vocabulary of the further properties *)

(** A string without whitespace. *)
Definition spaceless (t : string) : Prop :=
  Forall (fun c => PyStr.isspace c = false) (list_ascii_of_string t).

(** What [split] returns: a string that is not empty and has no
    whitespace. *)
Definition token (t : string) : Prop :=
  t <> EmptyString /\ spaceless t.

(** The record that a line is transcoded to, if any, from the tokens of the
    line. *)
Definition transcode (line : string) : option string :=
  match PyStr.split line with
  | class_id :: coords =>
      match polygon_to_bbox coords with
      | Ok b => Some (bbox_line class_id b)
      | Raise _ => None
      end
  | [] => None
  end.







(** * Properties *)

(** ** The order of binary64 numbers *)

Module SFOrder.
Import SF.

Ltac order_cases :=
  repeat match goal with
    | s : bool |- _ => destruct s
    | |- context [Z.compare ?a ?b] => destruct (Z.compare_spec a b)
    | |- context [Pos.compare_cont Eq ?a ?b] =>
        change (Pos.compare_cont Eq a b) with (Pos.compare a b);
        destruct (Pos.compare_spec a b)
    end.

Lemma leb_key x y :
  is_nan x = false -> is_nan y = false ->
  SFleb x y = true <-> lex_le (key x) (key y).
Proof.
  destruct x, y; simpl; try discriminate; intros _ _;
    unfold SFleb, SFcompare; order_cases; simpl;
    split; intros; try reflexivity; try discriminate; try lia.
Qed.

Lemma ltb_key x y :
  is_nan x = false -> is_nan y = false ->
  SFltb x y = true <-> ~ lex_le (key y) (key x).
Proof.
  destruct x, y; simpl; try discriminate; intros _ _;
    unfold SFltb, SFcompare; order_cases; simpl;
    split; intros; try reflexivity; try discriminate; try lia.
Qed.

Lemma eqb_key x y :
  is_nan x = false -> is_nan y = false ->
  SFeqb x y = true <-> key x = key y.
Proof.
  destruct x, y; simpl; try discriminate; intros _ _;
    unfold SFeqb, SFcompare; order_cases; simpl;
    split; intros Hk; try reflexivity; try discriminate;
    try (subst; reflexivity); try (injection Hk; intros; lia).
Qed.

(** Two numbers at one position are one number, or two zeros. *)
Lemma key_inj x y :
  is_nan x = false -> is_nan y = false -> key x = key y ->
  x = y \/ (is_zero x = true /\ is_zero y = true).
Proof.
  destruct x as [sx|sx| |sx mx ex], y as [sy|sy| |sy my ey]; simpl;
    try discriminate; intros _ _;
    repeat match goal with s : bool |- _ => destruct s end;
    intros H; try discriminate; auto;
    left; injection H; intros; f_equal; lia.
Qed.

End SFOrder.

Module SFArith.
Import SF.

Ltac same_cases :=
  unfold same; simpl;
  intros [-> | [Hx Hx']] [-> | [Hy Hy']]; auto;
  repeat match goal with
    | H : is_zero ?x = true |- _ =>
        destruct x; try discriminate H; clear H
    end;
  simpl;
  repeat match goal with
    | x : spec_float |- _ => destruct x; simpl
    | s : bool |- _ => destruct s; simpl
    end; auto.

Lemma add_same x x' y y' :
  same x x' -> same y y' ->
  same (SFadd prec emax x y) (SFadd prec emax x' y').
Proof. same_cases. Qed.

Lemma sub_same x x' y y' :
  same x x' -> same y y' ->
  same (SFsub prec emax x y) (SFsub prec emax x' y').
Proof. same_cases. Qed.

Lemma div_same x x' y :
  same x x' -> same (SFdiv prec emax x y) (SFdiv prec emax x' y).
Proof.
  unfold same. intros [-> | [Hx Hx']]; [left; reflexivity |].
  destruct x; try discriminate Hx. destruct x'; try discriminate Hx'.
  destruct y; simpl;
    repeat match goal with s : bool |- _ => destruct s; simpl end; auto.
Qed.

End SFArith.

(** ** The order and equality of Python floats *)

Module FloatFacts.

Lemma is_nan_spec x : PrimFloat.is_nan x = SF.is_nan (Prim2SF x).
Proof.
  unfold PrimFloat.is_nan. rewrite eqb_spec.
  destruct (SF.is_nan (Prim2SF x)) eqn:E.
  - destruct (Prim2SF x); try discriminate. reflexivity.
  - apply negb_false_iff. apply SFOrder.eqb_key; auto.
Qed.

Lemma leb_pos x y :
  PrimFloat.is_nan x = false -> PrimFloat.is_nan y = false ->
  (x <=? y)%float = true <-> SF.lex_le (pos x) (pos y).
Proof. rewrite !is_nan_spec, leb_spec. apply SFOrder.leb_key. Qed.

Lemma ltb_pos x y :
  PrimFloat.is_nan x = false -> PrimFloat.is_nan y = false ->
  (x <? y)%float = true <-> ~ SF.lex_le (pos y) (pos x).
Proof. rewrite !is_nan_spec, ltb_spec. apply SFOrder.ltb_key. Qed.

Ltac lex :=
  unfold SF.lex_le in *;
  repeat match goal with
    | p : (Z * Z * Z)%type |- _ => destruct p as [[? ?] ?]
    end;
  lia.

Lemma leb_refl x : PrimFloat.is_nan x = false -> (x <=? x)%float = true.
Proof. intros Hx. apply leb_pos; auto. destruct (pos x) as [[? ?] ?]. lex. Qed.

Lemma leb_trans x y z :
  PrimFloat.is_nan x = false -> PrimFloat.is_nan y = false ->
  PrimFloat.is_nan z = false ->
  (x <=? y)%float = true -> (y <=? z)%float = true -> (x <=? z)%float = true.
Proof.
  intros Hx Hy Hz. rewrite !leb_pos by assumption.
  generalize (pos x) (pos y) (pos z). intros. lex.
Qed.

Lemma ltb_leb x y :
  PrimFloat.is_nan x = false -> PrimFloat.is_nan y = false ->
  (x <? y)%float = true -> (x <=? y)%float = true.
Proof.
  intros Hx Hy. rewrite ltb_pos, leb_pos by assumption.
  generalize (pos x) (pos y). intros. lex.
Qed.

Lemma not_ltb_leb x y :
  PrimFloat.is_nan x = false -> PrimFloat.is_nan y = false ->
  (x <? y)%float = false -> (y <=? x)%float = true.
Proof.
  intros Hx Hy H. apply leb_pos; auto.
  assert (Hn : ~ ~ SF.lex_le (pos y) (pos x)).
  { intros Hc. apply ltb_pos in Hc; auto. congruence. }
  revert Hn. generalize (pos x) (pos y). intros. lex.
Qed.

Lemma leb_antisym x y :
  PrimFloat.is_nan x = false -> PrimFloat.is_nan y = false ->
  (x <=? y)%float = true -> (y <=? x)%float = true -> same_number x y.
Proof.
  intros Hx Hy. rewrite !leb_pos by assumption. intros H1 H2.
  right. rewrite eqb_spec. apply SFOrder.eqb_key; rewrite <- ?is_nan_spec; auto.
  fold (pos x). fold (pos y). revert H1 H2.
  generalize (pos x) (pos y). intros [[? ?] ?] [[? ?] ?]. simpl.
  intros. repeat f_equal; lia.
Qed.

Lemma same_number_spec x y :
  same_number x y <-> SF.same (Prim2SF x) (Prim2SF y).
Proof.
  unfold same_number, SF.same. split.
  - intros [-> | H]; [left; reflexivity |].
    rewrite eqb_spec in H.
    assert (Hx : SF.is_nan (Prim2SF x) = false)
      by (destruct (Prim2SF x); try reflexivity; discriminate H).
    assert (Hy : SF.is_nan (Prim2SF y) = false)
      by (destruct (Prim2SF x), (Prim2SF y); try reflexivity; discriminate H).
    apply SFOrder.key_inj; auto. apply SFOrder.eqb_key; auto.
  - intros [H | [Hx Hy]]; [left; apply Prim2SF_inj, H |].
    right. rewrite eqb_spec.
    destruct (Prim2SF x); try discriminate Hx.
    destruct (Prim2SF y); try discriminate Hy. reflexivity.
Qed.

Lemma add_same_number x x' y y' :
  same_number x x' -> same_number y y' -> same_number (x + y) (x' + y').
Proof.
  rewrite !same_number_spec, !add_spec. apply SFArith.add_same.
Qed.

Lemma sub_same_number x x' y y' :
  same_number x x' -> same_number y y' -> same_number (x - y) (x' - y').
Proof.
  rewrite !same_number_spec, !sub_spec. apply SFArith.sub_same.
Qed.

Lemma div_same_number x x' y :
  same_number x x' -> same_number (x / y) (x' / y).
Proof.
  rewrite !same_number_spec, !div_spec. apply SFArith.div_same.
Qed.

Lemma min_from_In cur l : In (PyFloat.min_from cur l) (cur :: l).
Proof.
  revert cur. induction l as [| x l IH]; intros cur; simpl; [auto |].
  destruct (IH (if (x <? cur)%float then x else cur)) as [H | H]; auto.
  destruct (x <? cur)%float; auto.
Qed.

Lemma max_from_In cur l : In (PyFloat.max_from cur l) (cur :: l).
Proof.
  revert cur. induction l as [| x l IH]; intros cur; simpl; [auto |].
  destruct (IH (if (cur <? x)%float then x else cur)) as [H | H]; auto.
  destruct (cur <? x)%float; auto.
Qed.

Lemma min_from_le cur l :
  no_nan (cur :: l) ->
  Forall (fun x => (PyFloat.min_from cur l <=? x)%float = true) (cur :: l).
Proof.
  revert cur. induction l as [| x l IH]; intros cur Hnn.
  - inversion_clear Hnn. simpl. constructor; [apply leb_refl; auto | constructor].
  - inversion_clear Hnn as [| ? ? Hcur Hl]. inversion_clear Hl as [| ? ? Hx Hl'].
    simpl. set (c := if (x <? cur)%float then x else cur).
    assert (Hc : PrimFloat.is_nan c = false) by (unfold c; destruct (x <? cur)%float; auto).
    assert (IH' := IH c (Forall_cons (fun x => PrimFloat.is_nan x = false) c l Hc Hl')).
    inversion_clear IH' as [| ? ? Hm Hrest].
    assert (Hmn : PrimFloat.is_nan (PyFloat.min_from c l) = false).
    { destruct (min_from_In c l) as [<- | Hin]; auto.
      rewrite Forall_forall in Hl'. apply Hl'; auto. }
    assert (Hcc : (c <=? cur)%float = true /\ (c <=? x)%float = true).
    { unfold c. destruct (x <? cur)%float eqn:E.
      - split; [apply ltb_leb; auto | apply leb_refl; auto].
      - split; [apply leb_refl; auto | apply not_ltb_leb; auto]. }
    destruct Hcc as [Hc1 Hc2].
    constructor; [eapply leb_trans; [| | | exact Hm | exact Hc1]; auto |].
    constructor; [eapply leb_trans; [| | | exact Hm | exact Hc2]; auto |].
    exact Hrest.
Qed.

Lemma max_from_ge cur l :
  no_nan (cur :: l) ->
  Forall (fun x => (x <=? PyFloat.max_from cur l)%float = true) (cur :: l).
Proof.
  revert cur. induction l as [| x l IH]; intros cur Hnn.
  - inversion_clear Hnn. simpl. constructor; [apply leb_refl; auto | constructor].
  - inversion_clear Hnn as [| ? ? Hcur Hl]. inversion_clear Hl as [| ? ? Hx Hl'].
    simpl. set (c := if (cur <? x)%float then x else cur).
    assert (Hc : PrimFloat.is_nan c = false) by (unfold c; destruct (cur <? x)%float; auto).
    assert (IH' := IH c (Forall_cons (fun x => PrimFloat.is_nan x = false) c l Hc Hl')).
    inversion_clear IH' as [| ? ? Hm Hrest].
    assert (Hmn : PrimFloat.is_nan (PyFloat.max_from c l) = false).
    { destruct (max_from_In c l) as [<- | Hin]; auto.
      rewrite Forall_forall in Hl'. apply Hl'; auto. }
    assert (Hcc : (cur <=? c)%float = true /\ (x <=? c)%float = true).
    { unfold c. destruct (cur <? x)%float eqn:E.
      - split; [apply ltb_leb; auto | apply leb_refl; auto].
      - split; [apply leb_refl; auto | apply not_ltb_leb; auto]. }
    destruct Hcc as [Hc1 Hc2].
    constructor; [eapply leb_trans; [| | | exact Hc1 | exact Hm]; auto |].
    constructor; [eapply leb_trans; [| | | exact Hc2 | exact Hm]; auto |].
    exact Hrest.
Qed.

Lemma min_is_minimum l :
  l <> [] -> no_nan l ->
  exists m, PyFloat.min l = Ok m /\ is_minimum m l.
Proof.
  destruct l as [| x l]; [congruence |]. intros _ Hnn.
  exists (PyFloat.min_from x l). split; [reflexivity |].
  split; [apply min_from_In | apply min_from_le, Hnn].
Qed.

Lemma max_is_maximum l :
  l <> [] -> no_nan l ->
  exists m, PyFloat.max l = Ok m /\ is_maximum m l.
Proof.
  destruct l as [| x l]; [congruence |]. intros _ Hnn.
  exists (PyFloat.max_from x l). split; [reflexivity |].
  split; [apply max_from_In | apply max_from_ge, Hnn].
Qed.

(** A minimum is determined by the items of the list, up to [==]. *)
Lemma minimum_perm m m' l l' :
  no_nan l -> Permutation l l' ->
  is_minimum m l -> is_minimum m' l' -> same_number m m'.
Proof.
  intros Hnn Hp [Hin Hle] [Hin' Hle'].
  rewrite Forall_forall in Hle, Hle'. unfold no_nan in Hnn.
  rewrite Forall_forall in Hnn.
  assert (Hin2 : In m' l) by (eapply Permutation_in; [symmetry |]; eauto).
  assert (Hin3 : In m l') by (eapply Permutation_in; eauto).
  apply leb_antisym; auto.
Qed.

Lemma maximum_perm m m' l l' :
  no_nan l -> Permutation l l' ->
  is_maximum m l -> is_maximum m' l' -> same_number m m'.
Proof.
  intros Hnn Hp [Hin Hle] [Hin' Hle'].
  rewrite Forall_forall in Hle, Hle'. unfold no_nan in Hnn.
  rewrite Forall_forall in Hnn.
  assert (Hin2 : In m' l) by (eapply Permutation_in; [symmetry |]; eauto).
  assert (Hin3 : In m l') by (eapply Permutation_in; eauto).
  apply leb_antisym; auto.
Qed.

End FloatFacts.

(** ** Reading the coordinates *)

Module Coords.

Lemma evens_cons {A} (x : A) l : evens (x :: l) = x :: odds l.
Proof. destruct l; reflexivity. Qed.

Lemma odds_cons {A} (x : A) l : odds (x :: l) = evens l.
Proof. reflexivity. Qed.

Lemma range2_S s n : range2 (S s) (S n) = map S (range2 s n).
Proof.
  unfold range2. rewrite List.map_map. simpl Nat.sub.
  apply map_ext. intros k. lia.
Qed.

Lemma range2_0_S n : range2 0 (S n) = 0%nat :: map S (range2 1 n).
Proof.
  unfold range2.
  replace ((S n - 0 + 1) / 2)%nat with (S ((n - 1 + 1) / 2))%nat.
  - generalize ((n - 1 + 1) / 2)%nat. intros k.
    change (seq 0 (S k)) with (0%nat :: seq 1 k).
    rewrite <- seq_shift, !List.map_map. simpl. f_equal.
    rewrite ?List.map_map. apply map_ext. intros j. lia.
  - replace (S n - 0 + 1)%nat with (n + 1 * 2)%nat by lia.
    rewrite Nat.div_add by lia.
    destruct n as [| n]; [reflexivity |].
    replace (S n - 1 + 1)%nat with (S n) by lia. lia.
Qed.

Lemma mapM_map {A B C} (f : B -> result C) (g : A -> B) l :
  mapM f (map g l) = mapM (fun x => f (g x)) l.
Proof. induction l as [| x l IH]; simpl; [| rewrite IH]; reflexivity. Qed.

Lemma mapM_ext {A B} (f g : A -> result B) l :
  (forall x, f x = g x) -> mapM f l = mapM g l.
Proof.
  intros H. induction l as [| x l IH]; simpl; [| rewrite H, IH]; reflexivity.
Qed.

(** The two comprehensions of [polygon_to_bbox] read the items at the even
    and at the odd positions. *)
Lemma mapM_range2 {A B} (f : A -> result B) (l : list A) :
  mapM (fun i => tok <- getitem l i ;; f tok)%result (range2 0 (List.length l))
  = mapM f (evens l)
  /\ mapM (fun i => tok <- getitem l i ;; f tok)%result (range2 1 (List.length l))
     = mapM f (odds l).
Proof.
  induction l as [| x l [IH0 IH1]]; [split; reflexivity |].
  split.
  - simpl List.length. rewrite range2_0_S, evens_cons. simpl mapM at 1.
    unfold bind at 1. simpl mapM at 2.
    rewrite mapM_map. simpl.
    erewrite mapM_ext; [rewrite IH1; reflexivity |]. reflexivity.
  - simpl List.length. rewrite range2_S, odds_cons, mapM_map.
    erewrite mapM_ext; [exact IH0 |]. reflexivity.
Qed.

Lemma polygon_to_bbox_read coords :
  (6 <= List.length coords)%nat ->
  polygon_to_bbox coords
  = (x_coords <- mapM PyFloat.of_str (evens coords) ;;
     y_coords <- mapM PyFloat.of_str (odds coords) ;;
     bbox_of x_coords y_coords)%result.
Proof.
  intros Hlen. unfold polygon_to_bbox.
  destruct (Nat.ltb_spec (List.length coords) 6) as [H | _]; [lia |].
  destruct (mapM_range2 PyFloat.of_str coords) as [-> ->]. reflexivity.
Qed.

Lemma In_evens_odds {A} (t : A) l :
  In t l <-> In t (evens l) \/ In t (odds l).
Proof.
  induction l as [| x l IH]; [simpl; tauto |].
  rewrite evens_cons, odds_cons. simpl. tauto.
Qed.

Lemma nth_error_evens_odds {A} (l : list A) k :
  nth_error (evens l) k = nth_error l (2 * k)
  /\ nth_error (odds l) k = nth_error l (2 * k + 1).
Proof.
  revert l. induction k as [| k IH]; intros l.
  - destruct l as [| x [| y l]]; split; reflexivity.
  - replace (2 * S k)%nat with (S (S (2 * k))) by lia.
    replace (S (S (2 * k)) + 1)%nat with (S (S (2 * k + 1))) by lia.
    destruct l as [| x [| y l]].
    + split; reflexivity.
    + split; simpl; rewrite ?nth_error_nil; reflexivity.
    + destruct (IH l) as [IH0 IH1].
      split; [exact IH0 |].
      rewrite odds_cons, evens_cons. exact IH1.
Qed.

Lemma length_evens_odds {A} (l : list A) :
  (List.length (evens l) + List.length (odds l) = List.length l
   /\ List.length (odds l) <= List.length (evens l)
   /\ List.length (evens l) <= S (List.length (odds l)))%nat.
Proof.
  induction l as [| x l IH]; [simpl; lia |].
  rewrite evens_cons, odds_cons. simpl List.length. lia.
Qed.

Lemma mapM_Forall2 {A B} (f : A -> result B) l vs :
  mapM f l = Ok vs -> Forall2 (fun t v => f t = Ok v) l vs.
Proof.
  revert vs. induction l as [| t l IH]; simpl; intros vs H.
  - injection H as <-. constructor.
  - destruct (f t) as [v |] eqn:Hv; [| discriminate].
    destruct (mapM f l) as [vs' |]; [| discriminate].
    injection H as <-. constructor; auto.
Qed.

Lemma mapM_nth_error {A B} (f : A -> result B) l vs k :
  mapM f l = Ok vs ->
  nth_error vs k = match nth_error l k with
                   | Some t => match f t with
                               | Ok v => Some v
                               | Raise _ => None
                               end
                   | None => None
                   end.
Proof.
  intros H. apply mapM_Forall2 in H. revert k.
  induction H as [| t v l vs Hv _ IH]; intros [| k]; simpl; auto.
  rewrite Hv. reflexivity.
Qed.

Lemma mapM_Raise {A B} (f : A -> result B) l t e0 :
  In t l -> f t = Raise e0 ->
  exists t' e, In t' l /\ f t' = Raise e /\ mapM f l = Raise e.
Proof.
  induction l as [| x l IH]; simpl; [tauto |]. intros Hin Ht.
  destruct (f x) as [v |] eqn:Hx.
  - destruct Hin as [-> | Hin]; [congruence |].
    destruct (IH Hin Ht) as (t' & e & Hin' & Ht' & ->). eauto 6.
  - eauto 6.
Qed.

Lemma of_str_Raise tok e :
  PyFloat.of_str tok = Raise e ->
  e = ValueError ("could not convert string to float: " ++ PyStr.repr tok).
Proof.
  unfold PyFloat.of_str. destruct (PyFloat.parse _); congruence.
Qed.

(** A token that [float] refuses, anywhere in the list, makes the reducer
    raise the [ValueError] of such a token. *)
Lemma polygon_to_bbox_refused coords tok e0 :
  (6 <= List.length coords)%nat -> In tok coords ->
  PyFloat.of_str tok = Raise e0 ->
  exists tok' e,
    In tok' coords /\ PyFloat.of_str tok' = Raise e
    /\ polygon_to_bbox coords
       = Raise (ValueError ("could not convert string to float: "
                              ++ PyStr.repr tok')).
Proof.
  intros Hlen Hin Htok. rewrite polygon_to_bbox_read by assumption.
  destruct (mapM PyFloat.of_str (evens coords)) as [xs |] eqn:Hxs.
  - apply In_evens_odds in Hin as [Hin | Hin].
    + destruct (mapM_Raise _ _ _ _ Hin Htok) as (? & ? & _ & _ & H). congruence.
    + destruct (mapM_Raise _ _ _ _ Hin Htok) as (t' & e & Hin' & Ht' & ->).
      exists t', e. split; [apply In_evens_odds; auto |]. split; [exact Ht' |].
      simpl. rewrite (of_str_Raise _ _ Ht'). reflexivity.
  - assert (Hex : exists t, In t (evens coords) /\ PyFloat.of_str t = Raise e).
    { clear -Hxs. induction (evens coords) as [| x l IH]; simpl in *; [discriminate |].
      destruct (PyFloat.of_str x) eqn:Hx.
      - destruct (mapM PyFloat.of_str l); [discriminate |].
        destruct IH as (t & ? & ?); [congruence | eauto].
      - injection Hxs as <-. eauto. }
    destruct Hex as (t & Hin' & Ht). exists t, e.
    split; [apply In_evens_odds; auto |]. split; [exact Ht |].
    simpl. rewrite (of_str_Raise _ _ Ht). reflexivity.
Qed.

End Coords.

(** ** The reducer *)

(** C7: a coordinate list of fewer than 6 values makes the reducer raise
    its [ValueError], whatever the values are: nothing is read or computed,
    and no bounding box is returned. *)
Theorem polygon_to_bbox_too_short (coords : list string) :
  (List.length coords < 6)%nat ->
  polygon_to_bbox coords = Raise (ValueError "Polygon must have at least 3 points")
  /\ forall b, polygon_to_bbox coords <> Ok b.
Proof.
  intros Hlen. unfold polygon_to_bbox.
  destruct (Nat.ltb_spec (List.length coords) 6) as [_ | H]; [| lia].
  split; [reflexivity | discriminate].
Qed.

Lemma polygon_to_bbox_too_short_witness :
  (List.length ["0.1"; "0.2"; "abc"; "0.4"] < 6)%nat
  /\ polygon_to_bbox ["0.1"; "0.2"; "abc"; "0.4"]
     = Raise (ValueError "Polygon must have at least 3 points").
Proof.
  split; [simpl; lia |].
  apply (polygon_to_bbox_too_short ["0.1"; "0.2"; "abc"; "0.4"]). simpl; lia.
Defined.

Module Reducer.

Lemma numeric_values l :
  Forall numeric l ->
  exists vs, mapM PyFloat.of_str l = Ok vs /\ no_nan vs
             /\ List.length vs = List.length l.
Proof.
  induction 1 as [| t l (v & Hv & Hn) _ (vs & IH & Hnn & Hlen)].
  - exists []. repeat split. constructor.
  - exists (v :: vs). simpl. rewrite Hv, IH. repeat split.
    + constructor; assumption.
    + simpl. congruence.
Qed.

Lemma parsed_values l :
  Forall parses l ->
  exists vs, mapM PyFloat.of_str l = Ok vs /\ List.length vs = List.length l.
Proof.
  induction 1 as [| t l [v Hv] _ (vs & IH & Hlen)].
  - exists []. split; reflexivity.
  - exists (v :: vs). simpl. rewrite Hv, IH.
    split; [reflexivity | simpl; congruence].
Qed.

Lemma numeric_parses l : Forall numeric l -> Forall parses l.
Proof. apply Forall_impl. intros t (v & Hv & _). exists v. exact Hv. Qed.

Lemma Forall_evens_odds {A} (P : A -> Prop) l :
  Forall P l -> Forall P (evens l) /\ Forall P (odds l).
Proof.
  rewrite !Forall_forall. intros H.
  split; intros x Hx; apply H, Coords.In_evens_odds; auto.
Qed.

(** The lists that [polygon_to_bbox] builds from tokens that [float]
    accepts, and the box it returns. *)
Lemma polygon_to_bbox_parsed coords :
  (6 <= List.length coords)%nat -> Forall parses coords ->
  exists x0 xs y0 ys,
    mapM PyFloat.of_str (evens coords) = Ok (x0 :: xs)
    /\ mapM PyFloat.of_str (odds coords) = Ok (y0 :: ys)
    /\ polygon_to_bbox coords = bbox_of (x0 :: xs) (y0 :: ys).
Proof.
  intros Hlen Hall.
  destruct (Forall_evens_odds _ _ Hall) as [He Ho].
  destruct (parsed_values _ He) as (xs & Hxs & Hlx).
  destruct (parsed_values _ Ho) as (ys & Hys & Hly).
  destruct (Coords.length_evens_odds coords) as (Hsum & Hle & Hle').
  destruct xs as [| x0 xs]; [simpl in Hlx; lia |].
  destruct ys as [| y0 ys]; [simpl in Hly; lia |].
  exists x0, xs, y0, ys. split; [exact Hxs |]. split; [exact Hys |].
  rewrite Coords.polygon_to_bbox_read, Hxs, Hys by assumption. reflexivity.
Qed.

(** The same for tokens that are all numbers. *)
Lemma polygon_to_bbox_numeric coords :
  (6 <= List.length coords)%nat -> Forall numeric coords ->
  exists xs ys,
    mapM PyFloat.of_str (evens coords) = Ok xs
    /\ mapM PyFloat.of_str (odds coords) = Ok ys
    /\ no_nan xs /\ no_nan ys /\ xs <> [] /\ ys <> []
    /\ polygon_to_bbox coords = bbox_of xs ys.
Proof.
  intros Hlen Hnum.
  destruct (Forall_evens_odds _ _ Hnum) as [He Ho].
  destruct (numeric_values _ He) as (xs & Hxs & Hnx & Hlx).
  destruct (numeric_values _ Ho) as (ys & Hys & Hny & Hly).
  destruct (Coords.length_evens_odds coords) as (Hsum & Hle & Hle').
  exists xs, ys. repeat split; auto.
  - intros ->. simpl in Hlx. lia.
  - intros ->. simpl in Hly. lia.
  - rewrite Coords.polygon_to_bbox_read, Hxs, Hys by assumption. reflexivity.
Qed.

End Reducer.

(** C1: on a flattened coordinate list of at least 6 values that [float]
    accepts, the reducer returns exactly
    [(center_x, center_y, width, height)] with
    [center_x = (min_x + max_x) / 2], [center_y = (min_y + max_y) / 2],
    [width = max_x - min_x] and [height = max_y - min_y], where [min_x] and
    [max_x] are [min] and [max] of the values at the even positions, and
    [min_y] and [max_y] those of the values at the odd positions.  When the
    values are numbers (no NaN), these are the least and the greatest of the
    values in the order of the floats. *)
Theorem polygon_to_bbox_correct (coords : list string) :
  (6 <= List.length coords)%nat -> Forall parses coords ->
  exists xs ys min_x max_x min_y max_y,
    (forall k, nth_error xs k = value_at coords (2 * k))
    /\ (forall k, nth_error ys k = value_at coords (2 * k + 1))
    /\ PyFloat.min xs = Ok min_x /\ PyFloat.max xs = Ok max_x
    /\ PyFloat.min ys = Ok min_y /\ PyFloat.max ys = Ok max_y
    /\ polygon_to_bbox coords
       = Ok (((min_x + max_x) / 2)%float, ((min_y + max_y) / 2)%float,
             (max_x - min_x)%float, (max_y - min_y)%float)
    /\ (Forall numeric coords ->
        is_minimum min_x xs /\ is_maximum max_x xs
        /\ is_minimum min_y ys /\ is_maximum max_y ys).
Proof.
  intros Hlen Hall.
  destruct (Reducer.polygon_to_bbox_parsed coords Hlen Hall)
    as (x0 & xs & y0 & ys & Hxs & Hys & Hbox).
  exists (x0 :: xs), (y0 :: ys), (PyFloat.min_from x0 xs),
    (PyFloat.max_from x0 xs), (PyFloat.min_from y0 ys), (PyFloat.max_from y0 ys).
  split; [| split; [| do 4 (split; [reflexivity |]); split; [exact Hbox |]]].
  - intros k. rewrite (Coords.mapM_nth_error _ _ _ k Hxs).
    destruct (Coords.nth_error_evens_odds coords k) as [-> _]. reflexivity.
  - intros k. rewrite (Coords.mapM_nth_error _ _ _ k Hys).
    destruct (Coords.nth_error_evens_odds coords k) as [_ ->]. reflexivity.
  - intros Hnum.
    destruct (Reducer.polygon_to_bbox_numeric coords Hlen Hnum)
      as (xs' & ys' & Hxs' & Hys' & Hnx & Hny & _).
    assert (xs' = x0 :: xs) by congruence.
    assert (ys' = y0 :: ys) by congruence. subst xs' ys'.
    repeat split;
      auto using FloatFacts.min_from_In, FloatFacts.max_from_In,
        FloatFacts.min_from_le, FloatFacts.max_from_ge.
Qed.

Lemma polygon_to_bbox_correct_witness :
  exists xs ys min_x max_x min_y max_y,
    (forall k, nth_error xs k
               = value_at ["0.1"; "0.1"; "0.2"; "0.1"; "0.2"; "0.2"] (2 * k))
    /\ (forall k, nth_error ys k
                  = value_at ["0.1"; "0.1"; "0.2"; "0.1"; "0.2"; "0.2"] (2 * k + 1))
    /\ PyFloat.min xs = Ok min_x /\ PyFloat.max xs = Ok max_x
    /\ PyFloat.min ys = Ok min_y /\ PyFloat.max ys = Ok max_y
    /\ polygon_to_bbox ["0.1"; "0.1"; "0.2"; "0.1"; "0.2"; "0.2"]
       = Ok (((min_x + max_x) / 2)%float, ((min_y + max_y) / 2)%float,
             (max_x - min_x)%float, (max_y - min_y)%float)
    /\ (Forall numeric ["0.1"; "0.1"; "0.2"; "0.1"; "0.2"; "0.2"] ->
        is_minimum min_x xs /\ is_maximum max_x xs
        /\ is_minimum min_y ys /\ is_maximum max_y ys).
Proof.
  apply (polygon_to_bbox_correct ["0.1"; "0.1"; "0.2"; "0.1"; "0.2"; "0.2"]).
  - simpl; lia.
  - repeat constructor; eexists; vm_compute; reflexivity.
Defined.

(** ** The transcoder *)

Module Transcoder.

(** [process_line] on a line of a class identifier and at least 6 coordinate
    tokens. *)
Lemma process_line_parts line class_id coords w :
  PyStr.split (PyStr.strip line) = class_id :: coords ->
  (6 <= List.length coords)%nat ->
  process_line line w
  = match polygon_to_bbox coords with
    | Ok b => (Ok (Some (bbox_line class_id b)), w)
    | Raise (ValueError msg) =>
        (Ok None, printed ("Warning: Error processing line: " ++ msg) w)
    | Raise e => (Raise e, w)
    end.
Proof.
  intros Hparts Hlen. unfold process_line. rewrite Hparts.
  destruct (Nat.ltb_spec (List.length (class_id :: coords)) 7) as [H | _];
    [simpl in H; lia |].
  unfold iobind, lift, getitem. simpl nth_error. cbv iota beta.
  change (skipn 1 (class_id :: coords)) with coords.
  destruct (polygon_to_bbox coords) as [b | [msg | msg | msg | code]];
    reflexivity.
Qed.

Lemma process_line_few_parts line w :
  (List.length (PyStr.split (PyStr.strip line)) < 7)%nat ->
  process_line line w
  = (Ok None,
     printed ("Warning: Skipping invalid line (too few coordinates): "
                ++ PyStr.strip line) w).
Proof.
  intros Hlen. unfold process_line.
  destruct (Nat.ltb_spec (List.length (PyStr.split (PyStr.strip line))) 7)
    as [_ | H]; [reflexivity | lia].
Qed.

Lemma process_line_refused line class_id coords w :
  PyStr.split (PyStr.strip line) = class_id :: coords ->
  (6 <= List.length coords)%nat ->
  Exists refused coords ->
  fst (process_line line w) = Ok None.
Proof.
  intros Hparts Hlen Hex.
  apply Exists_exists in Hex as (t & Hin & e0 & Ht).
  destruct (Coords.polygon_to_bbox_refused coords t e0 Hlen Hin Ht)
    as (tok & e & _ & _ & Hraise).
  rewrite (process_line_parts line class_id coords w Hparts Hlen), Hraise.
  reflexivity.
Qed.

End Transcoder.

(** C10: when a list of at least 6 coordinate tokens holds a token that
    [float] refuses, it is the reducer itself that raises the [ValueError]
    (of [float], on such a token of the list): the tokens are parsed inside
    [polygon_to_bbox].  [process_line] catches it: it prints a warning with
    the error's message and returns [None]. *)
Theorem polygon_to_bbox_raises_process_line_catches
  (class_id : string) (coords : list string) (line : string) (w : world) :
  (6 <= List.length coords)%nat ->
  Exists refused coords ->
  PyStr.split (PyStr.strip line) = class_id :: coords ->
  exists tok,
    In tok coords /\ refused tok
    /\ polygon_to_bbox coords
       = Raise (ValueError ("could not convert string to float: "
                              ++ PyStr.repr tok))
    /\ process_line line w
       = (Ok None,
          printed ("Warning: Error processing line: "
                     ++ "could not convert string to float: "
                     ++ PyStr.repr tok) w).
Proof.
  intros Hlen Hex Hparts.
  apply Exists_exists in Hex as (t & Hin & e0 & Ht).
  destruct (Coords.polygon_to_bbox_refused coords t e0 Hlen Hin Ht)
    as (tok & e & Hin' & Htok & Hraise).
  exists tok. split; [exact Hin' |]. split; [exists e; exact Htok |].
  split; [exact Hraise |].
  rewrite (Transcoder.process_line_parts line class_id coords w Hparts Hlen).
  rewrite Hraise. reflexivity.
Qed.

Lemma polygon_to_bbox_raises_process_line_catches_witness :
  exists tok,
    In tok ["0.1"; "0.1"; "0.2"; "abc"; "0.2"; "0.2"] /\ refused tok
    /\ polygon_to_bbox ["0.1"; "0.1"; "0.2"; "abc"; "0.2"; "0.2"]
       = Raise (ValueError ("could not convert string to float: "
                              ++ PyStr.repr tok))
    /\ process_line "7 0.1 0.1 0.2 abc 0.2 0.2" (World ∅ [])
       = (Ok None,
          printed ("Warning: Error processing line: "
                     ++ "could not convert string to float: "
                     ++ PyStr.repr tok) (World ∅ [])).
Proof.
  apply (polygon_to_bbox_raises_process_line_catches
           "7" ["0.1"; "0.1"; "0.2"; "abc"; "0.2"; "0.2"]).
  - simpl; lia.
  - do 3 apply Exists_cons_tl. apply Exists_cons_hd.
    eexists. vm_compute. reflexivity.
  - vm_compute. reflexivity.
Defined.

(** C3: a line of fewer than 7 whitespace-separated tokens, and a line in
    which some token after the first is refused by [float], are both
    skipped: [process_line] returns [None], not a transcoded line. *)
Theorem process_line_skips (line : string) (w : world) :
  (List.length (PyStr.split (PyStr.strip line)) < 7)%nat
  \/ Exists refused (tl (PyStr.split (PyStr.strip line))) ->
  fst (process_line line w) = Ok None.
Proof.
  intros H.
  destruct (Nat.lt_ge_cases (List.length (PyStr.split (PyStr.strip line))) 7)
    as [Hfew | Hlen].
  - rewrite Transcoder.process_line_few_parts by assumption. reflexivity.
  - destruct H as [H | Hex]; [lia |].
    destruct (PyStr.split (PyStr.strip line)) as [| class_id coords] eqn:Hparts;
      [simpl in Hlen; lia |].
    simpl in Hlen, Hex.
    apply (Transcoder.process_line_refused line class_id coords w Hparts);
      [lia | exact Hex].
Qed.

Lemma process_line_skips_witness :
  fst (process_line "3 0.1 0.2 0.3 0.4" (World ∅ [])) = Ok None
  /\ fst (process_line "3 0.1 0.2 0.3 0.4 0.5 0.6 0.7 x" (World ∅ [])) = Ok None.
Proof.
  split.
  - apply (process_line_skips "3 0.1 0.2 0.3 0.4"). left. vm_compute. lia.
  - apply (process_line_skips "3 0.1 0.2 0.3 0.4 0.5 0.6 0.7 x"). right.
    replace (PyStr.split (PyStr.strip "3 0.1 0.2 0.3 0.4 0.5 0.6 0.7 x"))
      with ["3"; "0.1"; "0.2"; "0.3"; "0.4"; "0.5"; "0.6"; "0.7"; "x"]
      by (vm_compute; reflexivity).
    simpl tl. do 7 apply Exists_cons_tl. apply Exists_cons_hd.
    eexists. vm_compute. reflexivity.
Defined.

(** C5: the line ["0 0.1 0.1 0.2 0.1 0.2 0.2 0.1 0.2"] is transcoded, without
    a diagnostic, to exactly ["0 0.150000 0.150000 0.100000 0.100000"]:
    every number has six digits after the decimal point. *)
Theorem process_line_unit_square (w : world) :
  process_line "0 0.1 0.1 0.2 0.1 0.2 0.2 0.1 0.2" w
  = (Ok (Some "0 0.150000 0.150000 0.100000 0.100000"), w).
Proof.
  rewrite (Transcoder.process_line_parts _ "0"
             ["0.1"; "0.1"; "0.2"; "0.1"; "0.2"; "0.2"; "0.1"; "0.2"]);
    [| vm_compute; reflexivity | simpl; lia].
  vm_compute. reflexivity.
Qed.

(** ** Files *)

Module Files.

Lemma lstrip_blank s : blank s -> PyStr.lstrip s = EmptyString.
Proof.
  unfold blank. induction s as [| c s IH]; simpl; [reflexivity |].
  intros H. inversion_clear H as [| ? ? Hc Hs]. rewrite Hc. auto.
Qed.

Lemma strip_blank s : blank s -> PyStr.strip s = EmptyString.
Proof. intros H. unfold PyStr.strip. rewrite lstrip_blank by assumption. reflexivity. Qed.

Lemma convert_step_blank st line w :
  blank line -> convert_step st line w = (Ok st, w).
Proof.
  intros H. unfold convert_step. destruct st as [converted_lines skipped_lines].
  rewrite strip_blank by assumption. reflexivity.
Qed.

End Files.

(** C8: a line that is empty or holds whitespace only leaves the loop of
    [convert_file] as it found it: no record is added to the output, nothing
    is printed, the count of skipped lines stays as it is, and
    [process_line] is not reached.  The conversion of the lines of a file is
    that of the lines without it. *)
Theorem blank_line_ignored (line : string) :
  blank line ->
  (forall st w, convert_step st line w = (Ok st, w))
  /\ (forall before after st w,
        for_each convert_step (before ++ line :: after) st w
        = for_each convert_step (before ++ after) st w).
Proof.
  intros Hblank. split; [intros; apply Files.convert_step_blank, Hblank |].
  intros before after. induction before as [| x before IH]; intros st w.
  - simpl. unfold iobind. rewrite Files.convert_step_blank by assumption.
    reflexivity.
  - simpl. unfold iobind. destruct (convert_step st x w) as [[st' | e] w'];
      [apply IH | reflexivity].
Qed.

Lemma blank_line_ignored_witness :
  (forall st w, convert_step st "   " w = (Ok st, w))
  /\ (forall before after st w,
        for_each convert_step (before ++ "   " :: after) st w
        = for_each convert_step (before ++ after) st w).
Proof.
  apply (blank_line_ignored "   "). repeat constructor.
Defined.

(** C9: when the input file does not exist, [convert_file] raises
    [FileNotFoundError] and leaves the world as it is; in single-file mode
    [main] then ends the process with a non-zero exit status, and no file is
    written. *)
Theorem missing_input_file
  (batch_convert : string -> option string -> io unit)
  (with_suffix : string -> string -> string + string)
  (a : args) (w : world) :
  batch a = false ->
  files w !! input a = None ->
  (forall output_file,
      convert_file (input a) output_file w
      = (Raise (FileNotFoundError ("Input file not found: " ++ input a)), w))
  /\ exit_status (fst (main batch_convert with_suffix a w)) = 1%Z
  /\ exit_status (fst (main batch_convert with_suffix a w)) <> 0%Z
  /\ files (snd (main batch_convert with_suffix a w)) = files w.
Proof.
  intros Hbatch Hmissing.
  assert (Hconv : forall output_file,
             convert_file (input a) output_file w
             = (Raise (FileNotFoundError ("Input file not found: " ++ input a)), w)).
  { intros output_file. unfold convert_file, iobind, os_path_exists.
    rewrite Hmissing. reflexivity. }
  split; [exact Hconv |].
  unfold main, try_except_Exception. rewrite Hbatch.
  match goal with
  | |- context [fst (match ?body w with _ => _ end)] =>
      assert (Hbody : exists e, is_Exception e = true /\ body w = (Raise e, w))
  end.
  { unfold iobind. destruct (output a) as [o |].
    - unfold ret. rewrite Hconv. eexists; split; [| reflexivity]; reflexivity.
    - destruct (with_suffix (input a) ".bbox.txt") as [path | msg].
      + unfold ret. rewrite Hconv. eexists; split; [| reflexivity]; reflexivity.
      + unfold raise. eexists; split; [| reflexivity]; reflexivity. }
  destruct Hbody as (e & He & ->). rewrite He.
  split; [reflexivity |]. split; [discriminate | reflexivity].
Qed.

Lemma missing_input_file_witness :
  let a := Args "labels.txt" None false in
  let w := World {[ "other.txt" := "0 0.1 0.1 0.2 0.1 0.2 0.2" ]} [] in
  let batch_convert := fun (_ : string) (_ : option string) => ret tt in
  let with_suffix := fun (p s : string) => inl (String.append p s) : string + string in
  (forall output_file,
      convert_file (input a) output_file w
      = (Raise (FileNotFoundError ("Input file not found: " ++ input a)), w))
  /\ exit_status (fst (main batch_convert with_suffix a w)) = 1%Z
  /\ exit_status (fst (main batch_convert with_suffix a w)) <> 0%Z
  /\ files (snd (main batch_convert with_suffix a w)) = files w.
Proof.
  intros a w batch_convert with_suffix.
  apply (missing_input_file batch_convert with_suffix a w).
  - reflexivity.
  - vm_compute. reflexivity.
Defined.

(** ** A coordinate without a partner *)

Module Trailing.

Lemma evens_odds_snoc {A} (l : list A) (x : A) :
  (Nat.even (List.length l) = true ->
   evens (l ++ [x]) = evens l ++ [x] /\ odds (l ++ [x]) = odds l)
  /\ (Nat.even (List.length l) = false ->
      evens (l ++ [x]) = evens l /\ odds (l ++ [x]) = odds l ++ [x]).
Proof.
  induction l as [| y l [IHe IHo]]; [split; [split; reflexivity | discriminate] |].
  change ((y :: l) ++ [x]) with (y :: (l ++ [x])).
  rewrite !Coords.evens_cons, !Coords.odds_cons.
  change (List.length (y :: l)) with (S (List.length l)).
  rewrite Nat.even_succ, <- Nat.negb_even.
  destruct (Nat.even (List.length l)); simpl negb.
  - split; [discriminate |]. intros _. destruct IHe as [-> ->]; auto.
  - split; [| discriminate]. intros _. destruct IHo as [-> ->]; auto.
Qed.

Lemma mapM_snoc {A B} (f : A -> result B) l x vs v :
  mapM f l = Ok vs -> f x = Ok v -> mapM f (l ++ [x]) = Ok (vs ++ [v]).
Proof.
  revert vs. induction l as [| y l IH]; simpl; intros vs Hl Hx.
  - injection Hl as <-. rewrite Hx. reflexivity.
  - destruct (f y) as [u |]; [| discriminate].
    destruct (mapM f l) as [us |]; [| discriminate].
    injection Hl as <-. rewrite (IH us) by auto. reflexivity.
Qed.

Lemma min_from_snoc cur l v :
  PyFloat.min_from cur (l ++ [v])
  = if (v <? PyFloat.min_from cur l)%float then v else PyFloat.min_from cur l.
Proof. revert cur. induction l as [| x l IH]; intros cur; simpl; auto. Qed.

Lemma max_from_snoc cur l v :
  PyFloat.max_from cur (l ++ [v])
  = if (PyFloat.max_from cur l <? v)%float then v else PyFloat.max_from cur l.
Proof. revert cur. induction l as [| x l IH]; intros cur; simpl; auto. Qed.

Lemma min_snoc l v m :
  PyFloat.min l = Ok m ->
  PyFloat.min (l ++ [v]) = Ok (if (v <? m)%float then v else m).
Proof.
  destruct l as [| x l]; simpl; [discriminate |].
  intros H. injection H as <-. rewrite min_from_snoc. reflexivity.
Qed.

Lemma max_snoc l v m :
  PyFloat.max l = Ok m ->
  PyFloat.max (l ++ [v]) = Ok (if (m <? v)%float then v else m).
Proof.
  destruct l as [| x l]; simpl; [discriminate |].
  intros H. injection H as <-. rewrite max_from_snoc. reflexivity.
Qed.

End Trailing.

(** C2, as the code has it: on a line that passes validation with an odd
    number of coordinate tokens, the last token is read as one more x value,
    without a y.  The line is transcoded without a diagnostic; [center_y]
    and [height] are those of the line without its last token, and
    [center_x] and [width] come from the minimum and the maximum of the x
    values with the last token's value among them. *)
Theorem odd_trailing_token_is_an_x
  (class_id : string) (coords : list string) (last line : string) (w : world) :
  PyStr.split (PyStr.strip line) = class_id :: coords ++ [last] ->
  (6 <= List.length coords)%nat ->
  Nat.even (List.length coords) = true ->
  Forall parses (coords ++ [last]) ->
  exists xs v min_x max_x center_y height,
    mapM PyFloat.of_str (evens coords) = Ok xs
    /\ PyFloat.of_str last = Ok v
    /\ PyFloat.min xs = Ok min_x /\ PyFloat.max xs = Ok max_x
    /\ polygon_to_bbox coords
       = Ok (((min_x + max_x) / 2)%float, center_y,
             (max_x - min_x)%float, height)
    /\ let min_x' := if (v <? min_x)%float then v else min_x in
       let max_x' := if (max_x <? v)%float then v else max_x in
       let b' := (((min_x' + max_x') / 2)%float, center_y,
                  (max_x' - min_x')%float, height) in
       polygon_to_bbox (coords ++ [last]) = Ok b'
       /\ process_line line w = (Ok (Some (bbox_line class_id b')), w).
Proof.
  intros Hparts Hlen Heven Hall.
  apply Forall_app in Hall as [Hcoords Hlast].
  inversion_clear Hlast as [| ? ? [v Hv] _].
  destruct (Reducer.Forall_evens_odds _ _ Hcoords) as [He Ho].
  destruct (Reducer.parsed_values _ He) as (xs & Hxs & Hlx).
  destruct (Reducer.parsed_values _ Ho) as (ys & Hys & Hly).
  destruct (Coords.length_evens_odds coords) as (Hsum & Hle & Hle').
  destruct xs as [| x0 xs]; [simpl in Hlx; lia |].
  destruct ys as [| y0 ys]; [simpl in Hly; lia |].
  destruct (proj1 (Trailing.evens_odds_snoc coords last) Heven) as [Hev Hod].
  exists (x0 :: xs), v, (PyFloat.min_from x0 xs), (PyFloat.max_from x0 xs),
    ((PyFloat.min_from y0 ys + PyFloat.max_from y0 ys) / 2)%float,
    (PyFloat.max_from y0 ys - PyFloat.min_from y0 ys)%float.
  split; [exact Hxs |]. split; [exact Hv |].
  split; [reflexivity |]. split; [reflexivity |].
  split.
  - rewrite Coords.polygon_to_bbox_read, Hxs, Hys by assumption. reflexivity.
  - assert (Hbox : polygon_to_bbox (coords ++ [last])
                   = Ok (((if (v <? PyFloat.min_from x0 xs)%float then v
                           else PyFloat.min_from x0 xs)
                          + (if (PyFloat.max_from x0 xs <? v)%float then v
                             else PyFloat.max_from x0 xs)) / 2,
                         (PyFloat.min_from y0 ys + PyFloat.max_from y0 ys) / 2,
                         (if (PyFloat.max_from x0 xs <? v)%float then v
                          else PyFloat.max_from x0 xs)
                         - (if (v <? PyFloat.min_from x0 xs)%float then v
                            else PyFloat.min_from x0 xs),
                         PyFloat.max_from y0 ys - PyFloat.min_from y0 ys)%float).
    { rewrite Coords.polygon_to_bbox_read by (rewrite length_app; simpl; lia).
      rewrite Hev, Hod, (Trailing.mapM_snoc _ _ _ _ _ Hxs Hv), Hys.
      unfold bind at 1 2. unfold bbox_of.
      rewrite (Trailing.min_snoc (x0 :: xs) v _ eq_refl).
      rewrite (Trailing.max_snoc (x0 :: xs) v _ eq_refl).
      reflexivity. }
    cbv zeta. split; [exact Hbox |].
    rewrite (Transcoder.process_line_parts line class_id (coords ++ [last]) w Hparts)
      by (rewrite length_app; simpl; lia).
    rewrite Hbox. reflexivity.
Qed.

Lemma odd_trailing_token_is_an_x_witness :
  exists xs v min_x max_x center_y height,
    mapM PyFloat.of_str (evens ["0.1"; "0.1"; "0.2"; "0.1"; "0.2"; "0.2"]) = Ok xs
    /\ PyFloat.of_str "0.9" = Ok v
    /\ PyFloat.min xs = Ok min_x /\ PyFloat.max xs = Ok max_x
    /\ polygon_to_bbox ["0.1"; "0.1"; "0.2"; "0.1"; "0.2"; "0.2"]
       = Ok (((min_x + max_x) / 2)%float, center_y,
             (max_x - min_x)%float, height)
    /\ let min_x' := if (v <? min_x)%float then v else min_x in
       let max_x' := if (max_x <? v)%float then v else max_x in
       let b' := (((min_x' + max_x') / 2)%float, center_y,
                  (max_x' - min_x')%float, height) in
       polygon_to_bbox (["0.1"; "0.1"; "0.2"; "0.1"; "0.2"; "0.2"] ++ ["0.9"])
       = Ok b'
       /\ process_line "0 0.1 0.1 0.2 0.1 0.2 0.2 0.9" (World ∅ [])
          = (Ok (Some (bbox_line "0" b')), World ∅ []).
Proof.
  apply (odd_trailing_token_is_an_x
           "0" ["0.1"; "0.1"; "0.2"; "0.1"; "0.2"; "0.2"] "0.9"
           "0 0.1 0.1 0.2 0.1 0.2 0.2 0.9" (World ∅ [])).
  - vm_compute. reflexivity.
  - simpl; lia.
  - reflexivity.
  - repeat constructor; eexists; vm_compute; reflexivity.
Defined.

(** The claim C2 as it is written fails: the line
    ["0 0.1 0.1 0.2 0.1 0.2 0.2 0.9"] passes validation (8 tokens, all
    coordinates numeric) with 7 coordinate tokens, and its output is not
    that of the line without the last token. *)
Lemma odd_trailing_token_counterexample :
  let line := "0 0.1 0.1 0.2 0.1 0.2 0.2 0.9" in
  let line' := "0 0.1 0.1 0.2 0.1 0.2 0.2" in
  PyStr.split (PyStr.strip line) = PyStr.split (PyStr.strip line') ++ ["0.9"]
  /\ (7 <= List.length (PyStr.split (PyStr.strip line)))%nat
  /\ Nat.odd (List.length (tl (PyStr.split (PyStr.strip line)))) = true
  /\ Forall numeric (tl (PyStr.split (PyStr.strip line)))
  /\ (forall w,
        process_line line w
        = (Ok (Some "0 0.500000 0.150000 0.800000 0.100000"), w))
  /\ (forall w,
        process_line line' w
        = (Ok (Some "0 0.150000 0.150000 0.100000 0.100000"), w))
  /\ (forall w, fst (process_line line w) <> fst (process_line line' w)).
Proof.
  assert (H1 : forall w,
             process_line "0 0.1 0.1 0.2 0.1 0.2 0.2 0.9" w
             = (Ok (Some "0 0.500000 0.150000 0.800000 0.100000"), w)).
  { intros w.
    rewrite (Transcoder.process_line_parts _ "0"
               ["0.1"; "0.1"; "0.2"; "0.1"; "0.2"; "0.2"; "0.9"]);
      [| vm_compute; reflexivity | simpl; lia].
    vm_compute. reflexivity. }
  assert (H2 : forall w,
             process_line "0 0.1 0.1 0.2 0.1 0.2 0.2" w
             = (Ok (Some "0 0.150000 0.150000 0.100000 0.100000"), w)).
  { intros w.
    rewrite (Transcoder.process_line_parts _ "0"
               ["0.1"; "0.1"; "0.2"; "0.1"; "0.2"; "0.2"]);
      [| vm_compute; reflexivity | simpl; lia].
    vm_compute. reflexivity. }
  cbv zeta.
  replace (PyStr.split (PyStr.strip "0 0.1 0.1 0.2 0.1 0.2 0.2 0.9"))
    with ["0"; "0.1"; "0.1"; "0.2"; "0.1"; "0.2"; "0.2"; "0.9"]
    by (vm_compute; reflexivity).
  split; [vm_compute; reflexivity |].
  split; [simpl; lia |]. split; [reflexivity |].
  split; [simpl tl; repeat constructor; eexists; split; vm_compute; reflexivity |].
  split; [exact H1 |]. split; [exact H2 |].
  intros w. rewrite H1, H2. simpl. discriminate.
Qed.

(** ** Reordering the vertices *)

Module Reorder.

Lemma evens_odds_flatten vertices :
  evens (flatten vertices) = map fst vertices
  /\ odds (flatten vertices) = map snd vertices.
Proof.
  induction vertices as [| v vertices [IHe IHo]]; [split; reflexivity |].
  change (flatten (v :: vertices)) with (fst v :: snd v :: flatten vertices).
  rewrite Coords.odds_cons, !Coords.evens_cons, Coords.odds_cons, IHe, IHo.
  split; reflexivity.
Qed.

Lemma length_flatten vertices :
  List.length (flatten vertices) = (2 * List.length vertices)%nat.
Proof.
  induction vertices as [| v vertices IH]; [reflexivity |].
  change (flatten (v :: vertices)) with (fst v :: snd v :: flatten vertices).
  simpl List.length. lia.
Qed.

Lemma Forall_flatten (P : string -> Prop) vertices :
  Forall P (flatten vertices)
  <-> Forall (fun v => P (fst v) /\ P (snd v)) vertices.
Proof.
  induction vertices as [| v vertices IH].
  - split; constructor.
  - change (flatten (v :: vertices)) with (fst v :: snd v :: flatten vertices).
    split; intros H.
    + inversion_clear H as [| ? ? H1 H']. inversion_clear H' as [| ? ? H2 H3].
      constructor; [tauto | apply IH, H3].
    + inversion_clear H as [| ? ? [H1 H2] H3].
      constructor; [| constructor]; auto. apply IH, H3.
Qed.

Lemma mapM_values l :
  Forall parses l -> mapM PyFloat.of_str l = Ok (map value l).
Proof.
  induction 1 as [| t l [v Hv] _ IH]; [reflexivity |].
  simpl. unfold value at 1. rewrite Hv, IH. reflexivity.
Qed.

(** The box of coordinate values, when no value is a NaN, does not depend on
    their order. *)
Lemma bbox_of_perm xs ys xs' ys' :
  xs <> [] -> ys <> [] -> no_nan xs -> no_nan ys ->
  Permutation xs xs' -> Permutation ys ys' ->
  exists b b', bbox_of xs ys = Ok b /\ bbox_of xs' ys' = Ok b' /\ same_bbox b b'.
Proof.
  intros Hx0 Hy0 Hnx Hny Hpx Hpy.
  assert (Hx0' : xs' <> []) by (intros ->; apply Permutation_sym, Permutation_nil in Hpx; auto).
  assert (Hy0' : ys' <> []) by (intros ->; apply Permutation_sym, Permutation_nil in Hpy; auto).
  assert (Hnx' : no_nan xs') by (eapply Permutation_Forall; eauto).
  assert (Hny' : no_nan ys') by (eapply Permutation_Forall; eauto).
  destruct (FloatFacts.min_is_minimum xs Hx0 Hnx) as (min_x & Hminx & Mx).
  destruct (FloatFacts.max_is_maximum xs Hx0 Hnx) as (max_x & Hmaxx & Nx).
  destruct (FloatFacts.min_is_minimum ys Hy0 Hny) as (min_y & Hminy & My).
  destruct (FloatFacts.max_is_maximum ys Hy0 Hny) as (max_y & Hmaxy & Ny).
  destruct (FloatFacts.min_is_minimum xs' Hx0' Hnx') as (min_x' & Hminx' & Mx').
  destruct (FloatFacts.max_is_maximum xs' Hx0' Hnx') as (max_x' & Hmaxx' & Nx').
  destruct (FloatFacts.min_is_minimum ys' Hy0' Hny') as (min_y' & Hminy' & My').
  destruct (FloatFacts.max_is_maximum ys' Hy0' Hny') as (max_y' & Hmaxy' & Ny').
  assert (Ex := FloatFacts.minimum_perm _ _ _ _ Hnx Hpx Mx Mx').
  assert (Fx := FloatFacts.maximum_perm _ _ _ _ Hnx Hpx Nx Nx').
  assert (Ey := FloatFacts.minimum_perm _ _ _ _ Hny Hpy My My').
  assert (Fy := FloatFacts.maximum_perm _ _ _ _ Hny Hpy Ny Ny').
  unfold bbox_of.
  rewrite Hminx, Hmaxx, Hminy, Hmaxy, Hminx', Hmaxx', Hminy', Hmaxy'.
  eexists _, _. split; [reflexivity |]. split; [reflexivity |].
  repeat split;
    auto using FloatFacts.add_same_number, FloatFacts.sub_same_number,
      FloatFacts.div_same_number.
Qed.

End Reorder.

(** C4, as the code has it: when no coordinate is a NaN, the boxes of a
    coordinate list of at least 3 vertices and of any permutation of its
    vertex pairs have fields that are equal numbers; a field that is zero may
    differ in its sign, and is otherwise identical. *)
Theorem bbox_permutation (vertices vertices' : list (string * string)) :
  (3 <= List.length vertices)%nat ->
  Permutation vertices vertices' ->
  Forall numeric (flatten vertices) ->
  exists b b',
    polygon_to_bbox (flatten vertices) = Ok b
    /\ polygon_to_bbox (flatten vertices') = Ok b'
    /\ same_bbox b b'.
Proof.
  intros Hlen Hperm Hnum.
  assert (Hnum' : Forall numeric (flatten vertices')).
  { apply Reorder.Forall_flatten. eapply Permutation_Forall; [exact Hperm |].
    apply Reorder.Forall_flatten, Hnum. }
  assert (Hlen' : (3 <= List.length vertices')%nat)
    by (rewrite <- (Permutation_length Hperm); exact Hlen).
  destruct (Reducer.polygon_to_bbox_numeric (flatten vertices))
    as (xs & ys & Hxs & Hys & Hnx & Hny & Hx0 & Hy0 & ->);
    [rewrite Reorder.length_flatten; lia | exact Hnum |].
  destruct (Reducer.polygon_to_bbox_numeric (flatten vertices'))
    as (xs' & ys' & Hxs' & Hys' & _ & _ & _ & _ & ->);
    [rewrite Reorder.length_flatten; lia | exact Hnum' |].
  destruct (Reorder.evens_odds_flatten vertices) as [He Ho].
  destruct (Reorder.evens_odds_flatten vertices') as [He' Ho'].
  destruct (Reducer.Forall_evens_odds _ _ (Reducer.numeric_parses _ Hnum)) as [Pe Po].
  destruct (Reducer.Forall_evens_odds _ _ (Reducer.numeric_parses _ Hnum')) as [Pe' Po'].
  rewrite (Reorder.mapM_values _ Pe) in Hxs. rewrite (Reorder.mapM_values _ Po) in Hys.
  rewrite (Reorder.mapM_values _ Pe') in Hxs'. rewrite (Reorder.mapM_values _ Po') in Hys'.
  injection Hxs as <-. injection Hys as <-. injection Hxs' as <-. injection Hys' as <-.
  apply Reorder.bbox_of_perm; auto.
  - rewrite He, He'. apply Permutation_map, Permutation_map, Hperm.
  - rewrite Ho, Ho'. apply Permutation_map, Permutation_map, Hperm.
Qed.

Lemma bbox_permutation_witness :
  exists b b',
    polygon_to_bbox (flatten [("0.1", "0.1"); ("0.2", "0.1"); ("0.2", "0.2")]) = Ok b
    /\ polygon_to_bbox (flatten [("0.2", "0.2"); ("0.1", "0.1"); ("0.2", "0.1")]) = Ok b'
    /\ same_bbox b b'.
Proof.
  apply (bbox_permutation [("0.1", "0.1"); ("0.2", "0.1"); ("0.2", "0.2")]
           [("0.2", "0.2"); ("0.1", "0.1"); ("0.2", "0.1")]).
  - simpl; lia.
  - apply Permutation_sym, (Permutation_cons_app [_; _] []). reflexivity.
  - simpl. repeat constructor; eexists; split; vm_compute; reflexivity.
Defined.

(** The claim C4 as it is written fails.  The vertices [(0, 0)], [(-0, 0)],
    [(-0, 0)] are real numbers, and moving the second vertex to the front
    changes [center_x] from [0.0] to [-0.0]: the boxes are not identical, and
    neither are the transcoded lines.  With a NaN among the values, the boxes
    of two orders are not even equal numbers. *)
Lemma bbox_permutation_counterexample :
  let vertices := [("0", "0"); ("-0", "0"); ("-0", "0")] in
  let vertices' := [("-0", "0"); ("0", "0"); ("-0", "0")] in
  let nans := [("nan", "0"); ("1", "0"); ("2", "0")] in
  let nans' := [("1", "0"); ("nan", "0"); ("2", "0")] in
  ((3 <= List.length vertices)%nat
   /\ Permutation vertices vertices'
   /\ Forall real (flatten vertices)
   /\ polygon_to_bbox (flatten vertices) = Ok (zero, zero, zero, zero)
   /\ polygon_to_bbox (flatten vertices') = Ok (neg_zero, zero, zero, zero)
   /\ polygon_to_bbox (flatten vertices) <> polygon_to_bbox (flatten vertices')
   /\ (forall w,
         process_line "0 0 0 -0 0 -0 0" w
         = (Ok (Some "0 0.000000 0.000000 0.000000 0.000000"), w))
   /\ (forall w,
         process_line "0 -0 0 0 0 -0 0" w
         = (Ok (Some "0 -0.000000 0.000000 0.000000 0.000000"), w)))
  /\ (Permutation nans nans'
      /\ polygon_to_bbox (flatten nans) = Ok (nan, zero, nan, zero)
      /\ polygon_to_bbox (flatten nans') = Ok (1.5, zero, one, zero)%float
      /\ ~ same_bbox (nan, zero, nan, zero) (1.5, zero, one, zero)%float).
Proof.
  cbv zeta. split.
  - split; [simpl; lia |].
    split; [apply (Permutation_cons_app [_] [_]); reflexivity |].
    split; [simpl; repeat constructor; eexists; split; vm_compute; reflexivity |].
    split; [vm_compute; reflexivity |]. split; [vm_compute; reflexivity |].
    split.
    + intros H.
      assert (H' : option_map (bbox_line "0")
                     (match polygon_to_bbox
                              (flatten [("0", "0"); ("-0", "0"); ("-0", "0")]) with
                      | Ok b => Some b
                      | Raise _ => None
                      end)
                   = option_map (bbox_line "0")
                       (match polygon_to_bbox
                                (flatten [("-0", "0"); ("0", "0"); ("-0", "0")]) with
                        | Ok b => Some b
                        | Raise _ => None
                        end))
        by (rewrite H; reflexivity).
      vm_compute in H'. discriminate H'.
    + split; intros w.
      * rewrite (Transcoder.process_line_parts _ "0" ["0"; "0"; "-0"; "0"; "-0"; "0"]);
          [| vm_compute; reflexivity | simpl; lia].
        vm_compute. reflexivity.
      * rewrite (Transcoder.process_line_parts _ "0" ["-0"; "0"; "0"; "0"; "-0"; "0"]);
          [| vm_compute; reflexivity | simpl; lia].
        vm_compute. reflexivity.
  - split; [apply (Permutation_cons_app [_] [_]); reflexivity |].
    split; [vm_compute; reflexivity |]. split; [vm_compute; reflexivity |].
    intros (H & _). destruct H as [H | H].
    + apply (f_equal Prim2SF) in H. vm_compute in H. discriminate H.
    + vm_compute in H. discriminate H.
Qed.

(** ** The sign of a difference *)

Module SFSub.
Import SF.

Lemma digits2_pos_bounds m :
  (2 ^ (Zpos (digits2_pos m) - 1) <= Zpos m < 2 ^ Zpos (digits2_pos m))%Z.
Proof.
  induction m as [m IH | m IH |]; simpl digits2_pos;
    try (rewrite Pos2Z.inj_succ;
         replace (Z.succ (Zpos (digits2_pos m)) - 1)%Z with (Zpos (digits2_pos m)) by lia;
         rewrite Z.pow_succ_r by lia;
         replace (2 ^ Zpos (digits2_pos m))%Z
           with (2 * 2 ^ (Zpos (digits2_pos m) - 1))%Z in *
           by (rewrite <- Z.pow_succ_r by lia; f_equal; lia);
         lia).
  simpl. lia.
Qed.

(** A mantissa of a valid binary64 number has at most 53 bits, and exactly
    53 above the least exponent. *)
Lemma bounded_canonical m e :
  bounded prec emax m e = true ->
  (Zpos (digits2_pos m) <= 53 /\ -1074 <= e
   /\ (Zpos (digits2_pos m) = 53 \/ e = -1074))%Z.
Proof.
  unfold bounded, canonical_mantissa, fexp, SpecFloat.emin, prec, emax.
  intros H. apply andb_true_iff in H as [H _]. apply Z.eqb_eq in H. lia.
Qed.

Lemma iter_xO m d : Zpos (Pos.iter xO m d) = (Zpos m * 2 ^ Zpos d)%Z.
Proof.
  induction d as [| d IH] using Pos.peano_ind.
  - simpl. lia.
  - rewrite Pos.iter_succ, Pos2Z.inj_succ, Z.pow_succ_r by lia.
    rewrite Pos2Z.inj_xO, IH. lia.
Qed.

Lemma shl_align_value m e ez :
  (ez <= e)%Z -> Zpos (fst (shl_align m e ez)) = (Zpos m * 2 ^ (e - ez))%Z.
Proof.
  intros H. unfold shl_align. destruct (ez - e)%Z as [| d | d] eqn:E; try lia.
  - replace (e - ez)%Z with 0%Z by lia. simpl fst. lia.
  - simpl fst. rewrite iter_xO. f_equal. f_equal. lia.
Qed.

(** The order of the exponents, then of the mantissas, is the order of the
    values. *)
Lemma aligned_le m1 e1 m2 e2 :
  bounded prec emax m1 e1 = true -> bounded prec emax m2 e2 = true ->
  (e1 < e2 \/ (e1 = e2 /\ Zpos m1 <= Zpos m2))%Z ->
  (Zpos (fst (shl_align m1 e1 (Z.min e1 e2)))
   <= Zpos (fst (shl_align m2 e2 (Z.min e1 e2))))%Z.
Proof.
  intros B1 B2 H.
  rewrite !shl_align_value by lia.
  apply bounded_canonical in B1, B2.
  destruct H as [Hlt | [-> Hm]].
  - replace (Z.min e1 e2) with e1 by lia.
    replace (e1 - e1)%Z with 0%Z by lia.
    assert (H1 := digits2_pos_bounds m1). assert (H2 := digits2_pos_bounds m2).
    assert (D2 : Zpos (digits2_pos m2) = 53%Z) by lia.
    rewrite D2 in H2.
    assert (Hp : (2 ^ Zpos (digits2_pos m1) <= 2 ^ 53)%Z)
      by (apply Z.pow_le_mono_r; lia).
    assert (Hq : (2 ^ 1 <= 2 ^ (e2 - e1))%Z) by (apply Z.pow_le_mono_r; lia).
    change (2 ^ (53 - 1))%Z with 4503599627370496%Z in H2.
    change (2 ^ 53)%Z with 9007199254740992%Z in Hp.
    change (2 ^ 1)%Z with 2%Z in Hq. change (2 ^ 0)%Z with 1%Z. nia.
  - replace (Z.min e2 e2) with e2 by lia.
    replace (e2 - e2)%Z with 0%Z by lia. simpl. lia.
Qed.

Lemma shr_1_nonneg mrs : (0 <= shr_m mrs)%Z -> (0 <= shr_m (shr_1 mrs))%Z.
Proof.
  destruct mrs as [m r s]. simpl.
  destruct m as [| [p | p |] | [p | p |]]; simpl; lia.
Qed.

Lemma iter_shr_1_nonneg p mrs :
  (0 <= shr_m mrs)%Z -> (0 <= shr_m (iter_pos shr_1 p mrs))%Z.
Proof.
  revert mrs. induction p as [p IH | p IH |]; intros mrs H; simpl.
  - apply IH, IH, shr_1_nonneg, H.
  - apply IH, IH, H.
  - apply shr_1_nonneg, H.
Qed.

Lemma shr_fexp_nonneg m e l :
  (0 <= m)%Z -> (0 <= shr_m (fst (shr_fexp prec emax m e l)))%Z.
Proof.
  intros H. unfold shr_fexp, shr.
  assert (H0 : (0 <= shr_m (shr_record_of_loc m l))%Z)
    by (destruct l as [| []]; exact H).
  destruct (fexp prec emax (Zdigits2 m + e) - e)%Z; simpl fst; auto.
  apply iter_shr_1_nonneg, H0.
Qed.

Lemma round_nearest_even_nonneg m l :
  (0 <= m)%Z -> (0 <= round_nearest_even m l)%Z.
Proof.
  intros H. destruct l as [| []]; simpl; try lia. destruct (Z.even m); lia.
Qed.

Lemma binary_round_aux_nonneg m e l :
  (0 <= m)%Z -> SF_nonneg (binary_round_aux prec emax false m e l) = true.
Proof.
  intros H. unfold binary_round_aux.
  assert (H1 := shr_fexp_nonneg m e l H).
  destruct (shr_fexp prec emax m e l) as [mrs' e'].
  assert (H2 := shr_fexp_nonneg
                  (round_nearest_even (shr_m mrs') (loc_of_shr_record mrs'))
                  e' loc_Exact (round_nearest_even_nonneg _ _ H1)).
  destruct (shr_fexp prec emax _ e' loc_Exact) as [mrs'' e''].
  simpl fst in H2. destruct (shr_m mrs''); try lia; [reflexivity |].
  destruct (e'' <=? emax - prec)%Z; reflexivity.
Qed.

Lemma binary_normalize_nonneg m e :
  (0 <= m)%Z -> SF_nonneg (binary_normalize prec emax m e false) = true.
Proof.
  intros H. destruct m as [| p | p]; try lia; [reflexivity |].
  unfold binary_normalize, binary_round.
  destruct (shl_align p e _) as [mz ez]. apply binary_round_aux_nonneg. lia.
Qed.

(** The difference of two valid finite numbers, the greater first, is not
    negative. *)
Lemma sub_nonneg x y :
  valid_binary x = true -> valid_binary y = true ->
  is_finite x = true -> is_finite y = true ->
  SFleb y x = true ->
  SF_nonneg (SFsub prec emax x y) = true.
Proof.
  intros Vx Vy Fx Fy Hle.
  apply SFOrder.leb_key in Hle;
    [| destruct y; try reflexivity; discriminate Fy
     | destruct x; try reflexivity; discriminate Fx].
  destruct x as [sx | sx | | sx mx ex]; try discriminate Fx;
    destruct y as [sy | sy | | sy my ey]; try discriminate Fy.
  - destruct sx, sy; reflexivity.
  - destruct sy; simpl in *; [reflexivity | lia].
  - destruct sx; simpl in *; [lia | reflexivity].
  - simpl in Vx, Vy. unfold SFsub. apply binary_normalize_nonneg.
    assert (Hxy := aligned_le mx ex my ey Vx Vy).
    assert (Hyx := aligned_le my ey mx ex Vy Vx).
    rewrite (Z.min_comm ey ex) in Hyx.
    destruct sx, sy; simpl in Hle; unfold cond_Zopp; try lia.
Qed.

End SFSub.

Module Extent.

Lemma Prim2SF_zero : Prim2SF zero = S754_zero false.
Proof. reflexivity. Qed.

Lemma Prim2SF_infinity : Prim2SF infinity = S754_infinity false.
Proof. reflexivity. Qed.

Lemma is_finite_spec x : PrimFloat.is_finite x = SF.is_finite (Prim2SF x).
Proof.
  unfold PrimFloat.is_finite, PrimFloat.is_infinity.
  rewrite FloatFacts.is_nan_spec, eqb_spec, abs_spec, Prim2SF_infinity.
  destruct (Prim2SF x) as [s | s | | s m e]; reflexivity.
Qed.

Lemma finite_not_nan x :
  PrimFloat.is_finite x = true -> PrimFloat.is_nan x = false.
Proof.
  rewrite is_finite_spec, FloatFacts.is_nan_spec.
  destruct (Prim2SF x); auto.
Qed.

Lemma float_sub_nonneg x y :
  PrimFloat.is_finite x = true -> PrimFloat.is_finite y = true ->
  (y <=? x)%float = true -> (zero <=? x - y)%float = true.
Proof.
  rewrite !is_finite_spec, !leb_spec, sub_spec, Prim2SF_zero.
  intros Fx Fy Hle.
  assert (H := SFSub.sub_nonneg _ _ (Prim2SF_valid x) (Prim2SF_valid y) Fx Fy Hle).
  unfold SF64sub. destruct (SFsub prec emax (Prim2SF x) (Prim2SF y)) as [s | s | | s m e];
    try discriminate H; try reflexivity; destruct s; try discriminate H; reflexivity.
Qed.

Lemma real_numeric l : Forall real l -> Forall numeric l.
Proof.
  apply Forall_impl. intros t (v & Hv & Hf). exists v.
  split; [exact Hv | apply finite_not_nan, Hf].
Qed.

Lemma finite_values l vs :
  Forall real l -> mapM PyFloat.of_str l = Ok vs ->
  Forall (fun v => PrimFloat.is_finite v = true) vs.
Proof.
  intros Hreal H. apply Coords.mapM_Forall2 in H.
  induction H as [| t v l vs Hv _ IH]; [constructor |].
  inversion_clear Hreal as [| ? ? (v' & Hv' & Hf) Hl].
  constructor; [congruence | apply IH, Hl].
Qed.

(** The extent of finite values is not negative. *)
Lemma extent_nonneg vs lo hi :
  Forall (fun v => PrimFloat.is_finite v = true) vs ->
  is_minimum lo vs -> is_maximum hi vs ->
  (zero <=? hi - lo)%float = true.
Proof.
  intros Hf [Hlo Hle] [Hhi _]. rewrite Forall_forall in Hf, Hle.
  apply float_sub_nonneg; auto.
Qed.

End Extent.

(** C6, as the code has it: for at least 3 vertices whose coordinates are
    read as finite numbers (no NaN, no infinity), the [width] and the
    [height] that the reducer returns are both greater than or equal to 0. *)
Theorem width_height_nonnegative (coords : list string) :
  (6 <= List.length coords)%nat -> Forall real coords ->
  exists center_x center_y width height,
    polygon_to_bbox coords = Ok (center_x, center_y, width, height)
    /\ (zero <=? width)%float = true /\ (zero <=? height)%float = true.
Proof.
  intros Hlen Hreal.
  destruct (Reducer.polygon_to_bbox_numeric coords Hlen (Extent.real_numeric _ Hreal))
    as (xs & ys & Hxs & Hys & Hnx & Hny & Hx0 & Hy0 & ->).
  destruct (Reducer.Forall_evens_odds _ _ Hreal) as [He Ho].
  assert (Fx := Extent.finite_values _ _ He Hxs).
  assert (Fy := Extent.finite_values _ _ Ho Hys).
  destruct (FloatFacts.min_is_minimum xs Hx0 Hnx) as (min_x & Hminx & Mx).
  destruct (FloatFacts.max_is_maximum xs Hx0 Hnx) as (max_x & Hmaxx & Nx).
  destruct (FloatFacts.min_is_minimum ys Hy0 Hny) as (min_y & Hminy & My).
  destruct (FloatFacts.max_is_maximum ys Hy0 Hny) as (max_y & Hmaxy & Ny).
  unfold bbox_of. rewrite Hminx, Hmaxx, Hminy, Hmaxy.
  eexists _, _, _, _. split; [reflexivity |].
  split.
  - exact (Extent.extent_nonneg xs min_x max_x Fx Mx Nx).
  - exact (Extent.extent_nonneg ys min_y max_y Fy My Ny).
Qed.

Lemma width_height_nonnegative_witness :
  exists center_x center_y width height,
    polygon_to_bbox ["0.1"; "0.1"; "0.2"; "0.1"; "0.2"; "0.2"]
    = Ok (center_x, center_y, width, height)
    /\ (zero <=? width)%float = true /\ (zero <=? height)%float = true.
Proof.
  apply (width_height_nonnegative ["0.1"; "0.1"; "0.2"; "0.1"; "0.2"; "0.2"]).
  - simpl; lia.
  - repeat constructor; eexists; split; vm_compute; reflexivity.
Defined.

(** The claim C6 as it is written fails.  [float] reads the numeral [1e999]
    as an infinity, and the extent of three such x values is
    [inf - inf], a NaN, which is not greater than or equal to 0; the same
    happens with the tokens [inf] and [nan]. *)
Lemma width_height_counterexample :
  let coords := ["1e999"; "0"; "1e999"; "0"; "1e999"; "0"] in
  (6 <= List.length coords)%nat
  /\ Forall numeric coords
  /\ polygon_to_bbox coords = Ok (infinity, zero, nan, zero)
  /\ (zero <=? nan)%float = false
  /\ (forall w,
        process_line "0 1e999 0 1e999 0 1e999 0" w
        = (Ok (Some "0 inf 0.000000 nan 0.000000"), w))
  /\ polygon_to_bbox ["inf"; "0"; "inf"; "0"; "inf"; "0"]
     = Ok (infinity, zero, nan, zero)
  /\ polygon_to_bbox ["nan"; "0"; "1"; "0"; "2"; "0"]
     = Ok (nan, zero, nan, zero).
Proof.
  cbv zeta. split; [simpl; lia |].
  split; [repeat constructor; eexists; split; vm_compute; reflexivity |].
  split; [vm_compute; reflexivity |]. split; [reflexivity |].
  split; [| split; vm_compute; reflexivity].
  intros w.
  rewrite (Transcoder.process_line_parts _ "0"
             ["1e999"; "0"; "1e999"; "0"; "1e999"; "0"]);
    [| vm_compute; reflexivity | simpl; lia].
  vm_compute. reflexivity.
Qed.

(** * Further properties *)

(** ** Tokens *)

Module Tokens.

Lemma string_of_rev_list (t : string) :
  string_of_list_ascii (rev (rev (list_ascii_of_string t))) = t.
Proof. rewrite rev_involutive. apply string_of_list_ascii_of_string. Qed.

(** Reading on from a run of characters without whitespace. *)
Lemma split_from_spaceless word t s :
  spaceless t ->
  PyStr.split_from word (t ++ s)
  = PyStr.split_from (rev (list_ascii_of_string t) ++ word) s.
Proof.
  unfold spaceless. revert word.
  induction t as [| c t IH]; intros word H; [reflexivity |].
  simpl in H. inversion_clear H as [| ? ? Hc Ht].
  simpl. rewrite Hc, IH by assumption. rewrite <- app_assoc. reflexivity.
Qed.

Lemma split_from_blank word s :
  blank s ->
  PyStr.split_from word s
  = match word with
    | [] => []
    | _ :: _ => [string_of_list_ascii (rev word)]
    end.
Proof.
  unfold blank. revert word.
  induction s as [| c s IH]; intros word H; [reflexivity |].
  simpl in H. inversion_clear H as [| ? ? Hc Hs].
  simpl. rewrite Hc, (IH [] Hs), app_nil_r. reflexivity.
Qed.

Lemma split_from_lstrip s :
  PyStr.split_from [] (PyStr.lstrip s) = PyStr.split_from [] s.
Proof.
  induction s as [| c s IH]; [reflexivity |].
  simpl. destruct (PyStr.isspace c) eqn:Hc; [exact IH |].
  simpl. rewrite Hc. reflexivity.
Qed.

Lemma rstrip_empty s : PyStr.rstrip s = EmptyString -> blank s.
Proof.
  unfold blank. induction s as [| c s IH]; simpl; [constructor |].
  destruct (PyStr.rstrip s) eqn:E; [| discriminate].
  destruct (PyStr.isspace c) eqn:Hc; [| discriminate].
  intros _. constructor; auto.
Qed.

Lemma split_from_rstrip word s :
  PyStr.split_from word (PyStr.rstrip s) = PyStr.split_from word s.
Proof.
  revert word. induction s as [| c s IH]; intros word; [reflexivity |].
  simpl. destruct (PyStr.rstrip s) as [| c' r] eqn:E.
  - assert (Hb := rstrip_empty s E).
    destruct (PyStr.isspace c) eqn:Hc; simpl; rewrite ?Hc;
      rewrite split_from_blank by assumption; rewrite ?app_nil_r; reflexivity.
  - simpl. destruct (PyStr.isspace c).
    + rewrite <- (IH []). reflexivity.
    + rewrite <- (IH (c :: word)). reflexivity.
Qed.

(** [line.strip().split()] is [line.split()]. *)
Lemma split_strip s : PyStr.split (PyStr.strip s) = PyStr.split s.
Proof.
  unfold PyStr.split, PyStr.strip.
  rewrite split_from_rstrip. apply split_from_lstrip.
Qed.

Lemma strip_strip_split s :
  PyStr.split (PyStr.strip (PyStr.strip s)) = PyStr.split s.
Proof. rewrite !split_strip. reflexivity. Qed.

End Tokens.

(** ** What the reducer and the transcoder return *)

Module Outcome.

Lemma mapM_Raise_inv {A B} (f : A -> result B) l e :
  mapM f l = Raise e -> exists t, In t l /\ f t = Raise e.
Proof.
  induction l as [| x l IH]; simpl; [discriminate |].
  destruct (f x) as [v |] eqn:Hx.
  - destruct (mapM f l); [discriminate |]. intros H.
    destruct (IH H) as (t & Hin & Ht). eauto.
  - intros H. injection H as <-. eauto.
Qed.

Lemma mapM_parses l vs :
  mapM PyFloat.of_str l = Ok vs -> Forall parses l.
Proof.
  intros H. apply Coords.mapM_Forall2 in H.
  induction H as [| t v l vs Hv _ IH]; constructor; [exists v |]; auto.
Qed.

Lemma bbox_of_Raise xs ys e :
  bbox_of xs ys = Raise e -> exists msg, e = ValueError msg.
Proof.
  unfold bbox_of. destruct xs as [| x0 xs]; simpl.
  - intros H. injection H as <-. eauto.
  - destruct ys as [| y0 ys]; simpl; [| discriminate].
    intros H. injection H as <-. eauto.
Qed.

Lemma polygon_to_bbox_short coords :
  (List.length coords < 6)%nat ->
  polygon_to_bbox coords
  = Raise (ValueError "Polygon must have at least 3 points").
Proof.
  intros H. unfold polygon_to_bbox.
  destruct (Nat.ltb_spec (List.length coords) 6); [reflexivity | lia].
Qed.

Lemma polygon_to_bbox_Raise coords e :
  polygon_to_bbox coords = Raise e -> exists msg, e = ValueError msg.
Proof.
  destruct (Nat.lt_ge_cases (List.length coords) 6) as [Hlt | Hge].
  - rewrite polygon_to_bbox_short by assumption.
    intros H. injection H as <-. eauto.
  - rewrite Coords.polygon_to_bbox_read by assumption.
    destruct (mapM PyFloat.of_str (evens coords)) as [xs |] eqn:Hxs; simpl.
    + destruct (mapM PyFloat.of_str (odds coords)) as [ys |] eqn:Hys; simpl.
      * apply bbox_of_Raise.
      * intros H. injection H as <-.
        destruct (mapM_Raise_inv _ _ _ Hys) as (t & _ & Ht).
        rewrite (Coords.of_str_Raise _ _ Ht). eauto.
    + intros H. injection H as <-.
      destruct (mapM_Raise_inv _ _ _ Hxs) as (t & _ & Ht).
      rewrite (Coords.of_str_Raise _ _ Ht). eauto.
Qed.

Lemma polygon_to_bbox_Ok coords b :
  polygon_to_bbox coords = Ok b ->
  (6 <= List.length coords)%nat /\ Forall parses coords.
Proof.
  intros H.
  destruct (Nat.lt_ge_cases (List.length coords) 6) as [Hlt | Hge].
  - rewrite polygon_to_bbox_short in H by assumption. discriminate.
  - split; [exact Hge |].
    rewrite Coords.polygon_to_bbox_read in H by assumption.
    destruct (mapM PyFloat.of_str (evens coords)) as [xs |] eqn:Hxs;
      [| discriminate].
    destruct (mapM PyFloat.of_str (odds coords)) as [ys |] eqn:Hys;
      [| discriminate].
    apply mapM_parses in Hxs, Hys. rewrite Forall_forall in *.
    intros t Ht. apply Coords.In_evens_odds in Ht as [Ht | Ht]; auto.
Qed.

End Outcome.

(** X1: the reducer returns a box exactly when the list has at least 6 items
    and [float] accepts every one of them; in every other case it raises a
    [ValueError], and nothing else: its indexing never leaves the list. *)
Theorem polygon_to_bbox_outcome (coords : list string) :
  ((exists b, polygon_to_bbox coords = Ok b)
   <-> (6 <= List.length coords)%nat /\ Forall parses coords)
  /\ (forall e, polygon_to_bbox coords = Raise e -> exists msg, e = ValueError msg).
Proof.
  split; [split |].
  - intros [b H]. exact (Outcome.polygon_to_bbox_Ok coords b H).
  - intros [Hlen Hall].
    destruct (Reducer.polygon_to_bbox_parsed coords Hlen Hall)
      as (x0 & xs & y0 & ys & _ & _ & ->).
    eexists. reflexivity.
  - apply Outcome.polygon_to_bbox_Raise.
Qed.

Module Isolation.

Lemma world_same w : {| files := files w; stdout := stdout w ++ [] |} = w.
Proof. destruct w as [f o]. simpl. rewrite app_nil_r. reflexivity. Qed.


(** [process_line] returns the record of the tokens of the line, and prints
    one warning when there is none. *)
Lemma process_line_transcode line w :
  exists out,
    process_line line w
    = (Ok (transcode line), {| files := files w; stdout := stdout w ++ out |})
    /\ match transcode line with
       | Some _ => out = []
       | None => exists msg, out = [msg]
       end.
Proof.
  unfold transcode. rewrite <- (Tokens.split_strip line).
  destruct (Nat.lt_ge_cases (List.length (PyStr.split (PyStr.strip line))) 7)
    as [Hfew | Hlen].
  - rewrite Transcoder.process_line_few_parts by assumption.
    eexists. split.
    + unfold printed.
      destruct (PyStr.split (PyStr.strip line)) as [| class_id coords];
        [reflexivity |].
      rewrite Outcome.polygon_to_bbox_short by (simpl in Hfew; lia).
      reflexivity.
    + destruct (PyStr.split (PyStr.strip line)) as [| class_id coords];
        [eauto |].
      rewrite Outcome.polygon_to_bbox_short by (simpl in Hfew; lia). eauto.
  - destruct (PyStr.split (PyStr.strip line)) as [| class_id coords] eqn:Hparts;
      [simpl in Hlen; lia |].
    simpl in Hlen.
    rewrite (Transcoder.process_line_parts line class_id coords w Hparts)
      by lia.
    destruct (polygon_to_bbox coords) as [b | e] eqn:Hbox.
    + exists []. rewrite world_same. split; reflexivity.
    + destruct (Outcome.polygon_to_bbox_Raise coords e Hbox) as [msg ->].
      eexists. split; [reflexivity | eauto].
Qed.

End Isolation.

(** X2: [process_line] never raises and never touches a file: whatever the
    line, it returns the record of the line's tokens or [None], and it prints
    exactly one warning when it returns [None] and nothing when it returns a
    record. *)
Theorem process_line_isolates_failures (line : string) (w : world) :
  exists out,
    process_line line w
    = (Ok (transcode line), {| files := files w; stdout := stdout w ++ out |})
    /\ (List.length out
        = match transcode line with Some _ => 0 | None => 1 end)%nat.
Proof.
  destruct (Isolation.process_line_transcode line w) as (out & H & Hout).
  exists out. split; [exact H |].
  destruct (transcode line); [subst; reflexivity |].
  destruct Hout as [msg ->]. reflexivity.
Qed.

(** X3: the result of [process_line] depends on the line through its tokens
    only: lines that differ in their whitespace (leading, trailing, or
    between the tokens) are transcoded to the same record. *)
Theorem process_line_whitespace_insensitive (line line' : string) (w w' : world) :
  PyStr.split line = PyStr.split line' ->
  fst (process_line line w) = fst (process_line line' w').
Proof.
  intros H.
  destruct (Isolation.process_line_transcode line w) as (out & -> & _).
  destruct (Isolation.process_line_transcode line' w') as (out' & -> & _).
  simpl. unfold transcode. rewrite H. reflexivity.
Qed.

Lemma process_line_whitespace_insensitive_witness :
  fst (process_line "0 0.1 0.1 0.2 0.1 0.2 0.2" (World ∅ []))
  = fst (process_line "   0  0.1 0.1   0.2 0.1 0.2 0.2  " (World ∅ ["x"])).
Proof.
  apply (process_line_whitespace_insensitive
           "0 0.1 0.1 0.2 0.1 0.2 0.2" "   0  0.1 0.1   0.2 0.1 0.2 0.2  ").
  vm_compute. reflexivity.
Defined.

(** ** The conversion of a file *)

Module Conversion.










End Conversion.

Module Accounting.



End Accounting.







(** ** The fields of a record *)

Module Fields.

Lemma list_ascii_app (a b : string) :
  list_ascii_of_string (a ++ b)
  = list_ascii_of_string a ++ list_ascii_of_string b.
Proof. induction a as [| c a IH]; simpl; [| rewrite IH]; reflexivity. Qed.

Lemma spaceless_app (a b : string) :
  spaceless a -> spaceless b -> spaceless (a ++ b).
Proof.
  unfold spaceless. rewrite list_ascii_app. intros Ha Hb.
  apply Forall_app; auto.
Qed.

Lemma app_not_empty (a b : string) :
  b <> EmptyString -> (a ++ b)%string <> EmptyString.
Proof. destruct a; simpl; [auto | discriminate]. Qed.

Lemma uint_spaceless d : spaceless (NilEmpty.string_of_uint d).
Proof.
  unfold spaceless.
  induction d; simpl; constructor; auto; reflexivity.
Qed.

Lemma pad_zeros_spaceless width s :
  spaceless s -> spaceless (PyFloat.pad_zeros width s).
Proof.
  intros H. unfold PyFloat.pad_zeros. apply spaceless_app; [| exact H].
  unfold spaceless. rewrite list_ascii_of_string_of_list_ascii.
  induction (width - String.length s)%nat; simpl; constructor; auto.
Qed.

Lemma fixed6_token neg n : token (PyFloat.fixed6 neg n).
Proof.
  unfold PyFloat.fixed6, PyStr.of_N. split.
  - apply app_not_empty, app_not_empty. discriminate.
  - apply spaceless_app; [destruct neg; repeat constructor |].
    apply spaceless_app; [apply uint_spaceless |].
    apply (spaceless_app "."); [repeat constructor |].
    apply pad_zeros_spaceless, uint_spaceless.
Qed.

(** A formatted number is one token. *)
Lemma format_6f_token x : token (PyFloat.format_6f x).
Proof.
  unfold PyFloat.format_6f.
  destruct (Prim2SF x) as [s | s | | s m e];
    try apply fixed6_token;
    try destruct s; (split; [discriminate | repeat constructor]).
Qed.

Lemma flush_token word :
  word <> [] -> Forall (fun c => PyStr.isspace c = false) word ->
  token (string_of_list_ascii (rev word)).
Proof.
  intros Hne Hw. split.
  - intros H. apply (f_equal list_ascii_of_string) in H.
    rewrite list_ascii_of_string_of_list_ascii in H. simpl in H.
    apply (f_equal (@rev ascii)) in H. rewrite rev_involutive in H.
    simpl in H. contradiction.
  - unfold spaceless. rewrite list_ascii_of_string_of_list_ascii.
    apply Forall_rev, Hw.
Qed.

Lemma split_from_tokens word s :
  Forall (fun c => PyStr.isspace c = false) word ->
  Forall token (PyStr.split_from word s).
Proof.
  revert word. induction s as [| c s IH]; intros word Hw.
  - simpl. destruct word as [| c w]; constructor; [| constructor].
    apply flush_token; [discriminate | exact Hw].
  - simpl. destruct (PyStr.isspace c) eqn:Hc.
    + apply Forall_app. split; [| apply IH; constructor].
      destruct word as [| c' w]; constructor; [| constructor].
      apply flush_token; [discriminate | exact Hw].
    + apply IH. constructor; assumption.
Qed.

(** [split] returns tokens. *)
Lemma split_tokens s : Forall token (PyStr.split s).
Proof. apply split_from_tokens. constructor. Qed.

(** A token followed by whitespace is the first token. *)
Lemma split_token_cons t c s :
  token t -> PyStr.isspace c = true ->
  PyStr.split (t ++ String c s) = t :: PyStr.split s.
Proof.
  intros [Hne Hs] Hc. unfold PyStr.split.
  rewrite Tokens.split_from_spaceless by exact Hs. rewrite app_nil_r.
  simpl. rewrite Hc.
  destruct (rev (list_ascii_of_string t)) as [| c' w] eqn:E.
  - exfalso. apply Hne. apply (f_equal (@rev ascii)) in E.
    rewrite rev_involutive in E. simpl in E.
    rewrite <- (string_of_list_ascii_of_string t), E. reflexivity.
  - rewrite <- E, Tokens.string_of_rev_list. reflexivity.
Qed.

Lemma append_empty (t : string) : (t ++ EmptyString)%string = t.
Proof.
  induction t as [| c t IH]; [reflexivity |].
  change (String c (t ++ EmptyString)%string = String c t).
  f_equal. exact IH.
Qed.

Lemma split_token t : token t -> PyStr.split t = [t].
Proof.
  intros [Hne Hs]. unfold PyStr.split.
  rewrite <- (append_empty t) at 1.
  rewrite Tokens.split_from_spaceless by exact Hs. rewrite app_nil_r. simpl.
  destruct (rev (list_ascii_of_string t)) as [| c' w] eqn:E.
  - exfalso. apply Hne. apply (f_equal (@rev ascii)) in E.
    rewrite rev_involutive in E. simpl in E.
    rewrite <- (string_of_list_ascii_of_string t), E. reflexivity.
  - rewrite <- E, Tokens.string_of_rev_list. reflexivity.
Qed.

(** The tokens of an output record. *)
Lemma split_bbox_line class_id center_x center_y width height :
  token class_id ->
  PyStr.split (bbox_line class_id (center_x, center_y, width, height))
  = [class_id; PyFloat.format_6f center_x; PyFloat.format_6f center_y;
     PyFloat.format_6f width; PyFloat.format_6f height].
Proof.
  intros Hc.
  change (bbox_line class_id (center_x, center_y, width, height))
    with (class_id
            ++ String " " (PyFloat.format_6f center_x
            ++ String " " (PyFloat.format_6f center_y
            ++ String " " (PyFloat.format_6f width
            ++ String " " (PyFloat.format_6f height)))))%string.
  rewrite split_token_cons by (auto; reflexivity).
  do 3 (rewrite split_token_cons by (try apply format_6f_token; reflexivity)).
  rewrite split_token by apply format_6f_token. reflexivity.
Qed.

Lemma transcode_Some line r :
  transcode line = Some r ->
  exists class_id coords b,
    PyStr.split line = class_id :: coords
    /\ polygon_to_bbox coords = Ok b
    /\ r = bbox_line class_id b.
Proof.
  unfold transcode. destruct (PyStr.split line) as [| class_id coords];
    [discriminate |].
  destruct (polygon_to_bbox coords) as [b |] eqn:Hbox; [| discriminate].
  intros H. injection H as <-. exists class_id, coords, b.
  split; [reflexivity |]. split; [exact Hbox | reflexivity].
Qed.

Lemma transcode_five_tokens line r :
  transcode line = Some r -> List.length (PyStr.split r) = 5%nat.
Proof.
  intros H. destruct (transcode_Some line r H)
    as (class_id & coords & [[[cx cy] w] h] & Hparts & _ & ->).
  assert (Ht : token class_id).
  { assert (Hall := split_tokens line). rewrite Hparts in Hall.
    inversion Hall; assumption. }
  rewrite split_bbox_line by exact Ht. reflexivity.
Qed.

Lemma transcode_record line r : transcode line = Some r -> transcode r = None.
Proof.
  intros H. assert (H5 := transcode_five_tokens line r H).
  unfold transcode. destruct (PyStr.split r) as [| c coords]; [reflexivity |].
  rewrite Outcome.polygon_to_bbox_short by (simpl in H5; lia). reflexivity.
Qed.

End Fields.

(** X7: a record that [process_line] returns has exactly five
    whitespace-separated fields: the first token of the input line, as it
    is, then [center_x], [center_y], [width] and [height] as formatted. *)
Theorem record_fields (line r : string) (w : world) :
  fst (process_line line w) = Ok (Some r) ->
  exists class_id coords center_x center_y width height,
    PyStr.split line = class_id :: coords
    /\ polygon_to_bbox coords = Ok (center_x, center_y, width, height)
    /\ PyStr.split r
       = [class_id; PyFloat.format_6f center_x; PyFloat.format_6f center_y;
          PyFloat.format_6f width; PyFloat.format_6f height].
Proof.
  destruct (Isolation.process_line_transcode line w) as (out & -> & _).
  simpl. intros H. injection H as H.
  destruct (Fields.transcode_Some line r H)
    as (class_id & coords & [[[cx cy] wd] h] & Hparts & Hbox & ->).
  exists class_id, coords, cx, cy, wd, h.
  split; [exact Hparts |]. split; [exact Hbox |].
  apply Fields.split_bbox_line.
  assert (Hall := Fields.split_tokens line). rewrite Hparts in Hall.
  inversion Hall; assumption.
Qed.

Lemma record_fields_witness :
  exists class_id coords center_x center_y width height,
    PyStr.split "7 0.1 0.1 0.2 0.1 0.2 0.2" = class_id :: coords
    /\ polygon_to_bbox coords = Ok (center_x, center_y, width, height)
    /\ PyStr.split "7 0.150000 0.150000 0.100000 0.100000"
       = [class_id; PyFloat.format_6f center_x; PyFloat.format_6f center_y;
          PyFloat.format_6f width; PyFloat.format_6f height].
Proof.
  apply (record_fields "7 0.1 0.1 0.2 0.1 0.2 0.2"
           "7 0.150000 0.150000 0.100000 0.100000" (World ∅ [])).
  rewrite (Transcoder.process_line_parts _ "7"
             ["0.1"; "0.1"; "0.2"; "0.1"; "0.2"; "0.2"]);
    [| vm_compute; reflexivity | simpl; lia].
  vm_compute. reflexivity.
Defined.

(** X8: a record that [process_line] returns is not itself a line that
    [process_line] accepts: given back to it, the record is skipped. *)
Theorem record_is_skipped (line r : string) (w w' : world) :
  fst (process_line line w) = Ok (Some r) ->
  fst (process_line r w') = Ok None.
Proof.
  destruct (Isolation.process_line_transcode line w) as (out & -> & _).
  destruct (Isolation.process_line_transcode r w') as (out' & -> & _).
  simpl. intros H. injection H as H.
  rewrite (Fields.transcode_record line r H). reflexivity.
Qed.

Lemma record_is_skipped_witness :
  fst (process_line "7 0.150000 0.150000 0.100000 0.100000" (World ∅ []))
  = Ok None.
Proof.
  apply (record_is_skipped "7 0.1 0.1 0.2 0.1 0.2 0.2"
           "7 0.150000 0.150000 0.100000 0.100000" (World ∅ []) (World ∅ [])).
  rewrite (Transcoder.process_line_parts _ "7"
             ["0.1"; "0.1"; "0.2"; "0.1"; "0.2"; "0.2"]);
    [| vm_compute; reflexivity | simpl; lia].
  vm_compute. reflexivity.
Defined.

(** ** Converting what was converted *)

Module Again.












End Again.



(** ** Degenerate and inner vertices *)

Module Degenerate.

Lemma SFltb_irrefl p : SFltb p p = false.
Proof.
  unfold SFltb, SFcompare. destruct p as [s | s | | s m e]; try destruct s;
    try reflexivity; rewrite Z.compare_refl;
    change (Pos.compare_cont Eq m m) with (Pos.compare m m);
    rewrite Pos.compare_refl; reflexivity.
Qed.

Lemma ltb_irrefl x : (x <? x)%float = false.
Proof. rewrite ltb_spec. apply SFltb_irrefl. Qed.

Lemma min_from_repeat x k : PyFloat.min_from x (repeat x k) = x.
Proof. induction k as [| k IH]; simpl; [| rewrite ltb_irrefl]; auto. Qed.

Lemma max_from_repeat x k : PyFloat.max_from x (repeat x k) = x.
Proof. induction k as [| k IH]; simpl; [| rewrite ltb_irrefl]; auto. Qed.

Lemma SFsub_diag p :
  SF.is_finite p = true -> SFsub prec emax p p = S754_zero false.
Proof.
  destruct p as [s | s | | s m e]; try discriminate; intros _.
  - destruct s; reflexivity.
  - unfold SFsub. cbv zeta. rewrite Z.sub_diag. reflexivity.
Qed.

(** The difference of a finite number and itself is the positive zero. *)
Lemma sub_diag x : PrimFloat.is_finite x = true -> (x - x)%float = zero.
Proof.
  intros Hf. apply Prim2SF_inj.
  rewrite sub_spec, Extent.Prim2SF_zero. apply SFsub_diag.
  rewrite <- Extent.is_finite_spec. exact Hf.
Qed.

Lemma mapM_repeat tok v k :
  PyFloat.of_str tok = Ok v ->
  mapM PyFloat.of_str (repeat tok k) = Ok (repeat v k).
Proof.
  intros H. induction k as [| k IH]; simpl; [| rewrite H, IH]; reflexivity.
Qed.

End Degenerate.

(** X10: a polygon that is one vertex with finite coordinates, repeated at
    least 3 times, has a box of width and height [0.0] (the positive zero),
    centred at [((x + x) / 2, (y + y) / 2)]. *)
Theorem repeated_vertex (x_tok y_tok : string) (x y : float) (n : nat) :
  (3 <= n)%nat ->
  PyFloat.of_str x_tok = Ok x -> PyFloat.of_str y_tok = Ok y ->
  PrimFloat.is_finite x = true -> PrimFloat.is_finite y = true ->
  polygon_to_bbox (flatten (repeat (x_tok, y_tok) n))
  = Ok (((x + x) / 2)%float, ((y + y) / 2)%float, zero, zero).
Proof.
  intros Hn Hx Hy Fx Fy.
  rewrite Coords.polygon_to_bbox_read
    by (rewrite Reorder.length_flatten, repeat_length; lia).
  destruct (Reorder.evens_odds_flatten (repeat (x_tok, y_tok) n)) as [-> ->].
  rewrite !map_repeat. simpl fst. simpl snd.
  rewrite (Degenerate.mapM_repeat x_tok x n Hx),
    (Degenerate.mapM_repeat y_tok y n Hy).
  destruct n as [| k]; [lia |].
  simpl. unfold bbox_of. simpl.
  rewrite !Degenerate.min_from_repeat, !Degenerate.max_from_repeat.
  rewrite !Degenerate.sub_diag by assumption. reflexivity.
Qed.

Lemma repeated_vertex_witness :
  exists x y,
    polygon_to_bbox (flatten (repeat ("0.3", "0.7") 4))
    = Ok (((x + x) / 2)%float, ((y + y) / 2)%float, zero, zero).
Proof.
  eexists _, _.
  apply (repeated_vertex "0.3" "0.7" _ _ 4).
  - lia.
  - vm_compute. reflexivity.
  - vm_compute. reflexivity.
  - vm_compute. reflexivity.
  - vm_compute. reflexivity.
Defined.

(** X11: a vertex appended to a polygon (of complete pairs) leaves the box
    as it is when its coordinates are neither below the minimum nor above
    the maximum of the vertices before it, in the sense of [<] of the
    floats; so does a vertex whose coordinates are NaN. *)
Theorem inner_vertex_appended
  (coords : list string) (x_tok y_tok : string) (xs ys : list float)
  (x y min_x max_x min_y max_y : float) :
  (6 <= List.length coords)%nat ->
  Nat.even (List.length coords) = true ->
  mapM PyFloat.of_str (evens coords) = Ok xs ->
  mapM PyFloat.of_str (odds coords) = Ok ys ->
  PyFloat.min xs = Ok min_x -> PyFloat.max xs = Ok max_x ->
  PyFloat.min ys = Ok min_y -> PyFloat.max ys = Ok max_y ->
  PyFloat.of_str x_tok = Ok x -> PyFloat.of_str y_tok = Ok y ->
  (x <? min_x)%float = false -> (max_x <? x)%float = false ->
  (y <? min_y)%float = false -> (max_y <? y)%float = false ->
  polygon_to_bbox (coords ++ [x_tok; y_tok]) = polygon_to_bbox coords
  /\ exists b, polygon_to_bbox coords = Ok b.
Proof.
  intros Hlen Heven Hxs Hys Hminx Hmaxx Hminy Hmaxy Hx Hy X1 X2 Y1 Y2.
  destruct (proj1 (Trailing.evens_odds_snoc coords x_tok) Heven) as [He Ho].
  assert (Hodd : Nat.even (List.length (coords ++ [x_tok])) = false).
  { rewrite length_app. simpl List.length.
    replace (List.length coords + 1)%nat with (S (List.length coords)) by lia.
    rewrite Nat.even_succ, <- Nat.negb_even, Heven. reflexivity. }
  destruct (proj2 (Trailing.evens_odds_snoc (coords ++ [x_tok]) y_tok) Hodd)
    as [He' Ho'].
  replace (coords ++ [x_tok; y_tok]) with ((coords ++ [x_tok]) ++ [y_tok])
    by (rewrite <- app_assoc; reflexivity).
  rewrite (Coords.polygon_to_bbox_read ((coords ++ [x_tok]) ++ [y_tok]))
    by (rewrite !length_app; simpl; lia).
  rewrite (Coords.polygon_to_bbox_read coords) by assumption.
  rewrite He', Ho', He, Ho.
  rewrite (Trailing.mapM_snoc _ _ _ _ _ Hxs Hx),
    (Trailing.mapM_snoc _ _ _ _ _ Hys Hy), Hxs, Hys.
  simpl bind. unfold bbox_of.
  rewrite (Trailing.min_snoc xs x min_x Hminx), (Trailing.max_snoc xs x max_x Hmaxx),
    (Trailing.min_snoc ys y min_y Hminy), (Trailing.max_snoc ys y max_y Hmaxy).
  rewrite Hminx, Hmaxx, Hminy, Hmaxy, X1, X2, Y1, Y2.
  split; [reflexivity | eexists; reflexivity].
Qed.

Lemma inner_vertex_appended_witness :
  polygon_to_bbox (["0.1"; "0.1"; "0.2"; "0.1"; "0.2"; "0.2"] ++ ["nan"; "0.15"])
  = polygon_to_bbox ["0.1"; "0.1"; "0.2"; "0.1"; "0.2"; "0.2"]
  /\ exists b, polygon_to_bbox ["0.1"; "0.1"; "0.2"; "0.1"; "0.2"; "0.2"] = Ok b.
Proof.
  eapply (inner_vertex_appended
            ["0.1"; "0.1"; "0.2"; "0.1"; "0.2"; "0.2"] "nan" "0.15").
  - simpl; lia.
  - reflexivity.
  - vm_compute. reflexivity.
  - vm_compute. reflexivity.
  - vm_compute. reflexivity.
  - vm_compute. reflexivity.
  - vm_compute. reflexivity.
  - vm_compute. reflexivity.
  - vm_compute. reflexivity.
  - vm_compute. reflexivity.
  - vm_compute. reflexivity.
  - vm_compute. reflexivity.
  - vm_compute. reflexivity.
  - vm_compute. reflexivity.
Defined.

(** ** The single-file mode of [main] *)

Module SingleFile.




End SingleFile.



(** ** The class identifier *)

(** X13: the class identifier is opaque to [process_line].  Two lines with
    the same coordinate tokens are both skipped or both transcoded, whatever
    their first tokens are (numeric or not), and their records then carry
    the same box, each after its own first token. *)
Theorem class_id_opaque
  (line line' class_id class_id' : string) (coords : list string)
  (w w' : world) :
  PyStr.split line = class_id :: coords ->
  PyStr.split line' = class_id' :: coords ->
  exists box : option bbox,
    fst (process_line line w) = Ok (option_map (bbox_line class_id) box)
    /\ fst (process_line line' w') = Ok (option_map (bbox_line class_id') box).
Proof.
  intros H H'.
  destruct (Isolation.process_line_transcode line w) as (out & -> & _).
  destruct (Isolation.process_line_transcode line' w') as (out' & -> & _).
  unfold transcode. rewrite H, H'. simpl.
  destruct (polygon_to_bbox coords) as [b | e].
  - exists (Some b). split; reflexivity.
  - exists None. split; reflexivity.
Qed.

Lemma class_id_opaque_witness :
  exists box : option bbox,
    fst (process_line "0 0.1 0.1 0.2 0.1 0.2 0.2" (World ∅ []))
    = Ok (option_map (bbox_line "0") box)
    /\ fst (process_line "cat 0.1 0.1 0.2 0.1 0.2 0.2" (World ∅ []))
       = Ok (option_map (bbox_line "cat") box).
Proof.
  apply (class_id_opaque "0 0.1 0.1 0.2 0.1 0.2 0.2"
           "cat 0.1 0.1 0.2 0.1 0.2 0.2" "0" "cat"
           ["0.1"; "0.1"; "0.2"; "0.1"; "0.2"; "0.2"]).
  - vm_compute. reflexivity.
  - vm_compute. reflexivity.
Defined.
